(** * Instance / message lifecycle of the WhatsApp API demo backend

    A shallow embedding of [src/main.py] and [src/schemas.py]: the documents
    of the four collections, the request bodies, the route handlers as state
    passing functions over the document store, and the statements of the
    specification that are settled against them. *)

From Stdlib Require Import ZArith String Ascii.
From stdpp Require Import base option list strings pretty.

Open Scope string_scope.
Open Scope list_scope.

(** ** Python values *)

(** [ObjectId]: the [_id] the store gives a document. *)
Definition ObjectId := nat.

(** [str(doc["_id"])]. *)
Definition str (i : ObjectId) : string := pretty i.

(** [datetime], in microseconds; [timedelta(minutes=10)]. *)
Definition datetime := Z.
Definition minutes (n : Z) : Z := (n * 60 * 1000000)%Z.

(** [Any] of [Dict[str, Any]]: a JSON value. *)
Unset Elimination Schemes.
Inductive Any :=
| JNull
| JBool (b : bool)
| JNum (z : Z)
| JStr (s : string)
| JList (l : list Any)
| JDict (d : list (string * Any)).
Set Elimination Schemes.

(** Truth value of an [Optional[str]]: [None] and [""] are false. *)
Definition truthy (o : option string) : bool :=
  match o with
  | Some s => negb (String.eqb s "")
  | None => false
  end.

(** [x or default] on optional strings and optional lists. *)
Definition or_str (o : option string) (default : string) : string :=
  match o with
  | Some s => if String.eqb s "" then default else s
  | None => default
  end.

Definition or_list {A} (o : option (list A)) (default : list A) : list A :=
  match o with
  | Some (x :: l) => x :: l
  | _ => default
  end.

(** ** schemas.py: the documents *)

Module User.
Record t := {
  email : option string;
  phone : option string;
  name : option string;
  otp_code : option string;
  otp_expires_at : option datetime;
  access_tokens : list string
}.
End User.

Module Instance.
Record t := {
  user_id : string;
  name : string;
  instance_id : string;
  token : string;
  is_authenticated : bool
}.
End Instance.

Module Message.
Record t := {
  instance_id : string;
  to : string;
  type : string;
  text : option string;
  media_url : option string;
  interactive : option (list (string * Any));
  status : string;
  error : option string;
  message_id : string
}.

(** [Literal["text", "image", "document", "audio", "video", "interactive"]] *)
Definition type_literal : list string :=
  ["text"; "image"; "document"; "audio"; "video"; "interactive"].

(** [Literal["queued", "sent", "delivered", "read", "failed"]] *)
Definition status_literal : list string :=
  ["queued"; "sent"; "delivered"; "read"; "failed"].
End Message.

Module Webhook.
Record t := {
  instance_id : string;
  url : string;
  events : list string
}.

Definition default_events : list string := ["message.status"; "message.incoming"].
End Webhook.

(** ** schemas.py: the request bodies *)

Module OTPRequest.
Record t := { email : option string; phone : option string }.
End OTPRequest.

Module OTPVerify.
Record t := { email : option string; phone : option string; code : string }.
End OTPVerify.

Module InstanceCreate.
Record t := { name : string }.
End InstanceCreate.

Module SendMessage.
Record t := {
  instance_id : string;
  token : string;
  to : string;
  type : option string;
  text : option string;
  media_url : option string;
  interactive : option (list (string * Any))
}.
End SendMessage.

Module RegisterWebhook.
Record t := {
  instance_id : string;
  token : string;
  url : string;
  events : option (list string)
}.
End RegisterWebhook.

(** ** Exceptions and results *)

Inductive exn :=
| HTTPException (status_code : nat) (detail : string)
| ValidationError.

Inductive result (A : Type) :=
| Ok (a : A)
| Raise (e : exn).
Arguments Ok {A} a.
Arguments Raise {A} e.

(** The error kinds of the specification, as the handlers raise them. *)
Definition InvalidRequest : exn := HTTPException 400 "Provide email or phone".
Definition NotRequested : exn := HTTPException 400 "OTP not requested".
Definition InvalidCode : exn := HTTPException 400 "Invalid OTP".
Definition Expired : exn := HTTPException 400 "OTP expired".
Definition Unauthorized : exn := HTTPException 401 "Invalid instance credentials".
Definition InstanceNotFound : exn := HTTPException 404 "Instance not found".
Definition MessageNotFound : exn := HTTPException 404 "Message not found".

(** Pydantic's check of the [Message] model: [type] and [status] are
    [Literal] fields, every other field takes the value it is given. *)
Definition Message_new (m : Message.t) : result Message.t :=
  if bool_decide (Message.type m ∈ Message.type_literal)
     && bool_decide (Message.status m ∈ Message.status_literal)
  then Ok m else Raise ValidationError.

(** ** The document store *)

(** Modelled from the spec: [database.py] ([db], [create_document]) is not
    among the sources. The store is the "persistent document store" of the
    specification, with "lookup-by-filter and atomic upsert/update": a
    collection is the list of its documents in insertion order, documents
    are never removed, and the [_id] of a document is its position. *)
Record db := {
  user : list User.t;
  instance : list Instance.t;
  message : list Message.t;
  webhook : list Webhook.t
}.

Definition empty_db : db := {| user := []; instance := []; message := []; webhook := [] |}.

Definition set_user (s : db) (l : list User.t) : db :=
  {| user := l; instance := instance s; message := message s; webhook := webhook s |}.
Definition set_instance (s : db) (l : list Instance.t) : db :=
  {| user := user s; instance := l; message := message s; webhook := webhook s |}.
Definition set_message (s : db) (l : list Message.t) : db :=
  {| user := user s; instance := instance s; message := l; webhook := webhook s |}.
Definition set_webhook (s : db) (l : list Webhook.t) : db :=
  {| user := user s; instance := instance s; message := message s; webhook := l |}.

(** [collection.find_one(filter)]: the first document that matches, with
    its [_id]. *)
Definition find_one {A} (P : A -> Prop) `{forall x, Decision (P x)}
    (l : list A) : option (ObjectId * A) :=
  list_find P l.

(** [collection.find(filter)]: every document that matches, with its [_id]. *)
Definition find {A} (P : A -> Prop) `{forall x, Decision (P x)}
    (l : list A) : list (ObjectId * A) :=
  filter (fun d => P (snd d)) (imap (fun i x => (i, x)) l).

(** [collection.update_one({"_id": i}, {"$set": ...})]. *)
Definition update_one {A} (i : ObjectId) (f : A -> A) (l : list A) : list A :=
  alter f i l.

(** Modelled from the spec: [create_document(collection, doc)] of
    [database.py] inserts the document and returns its new [_id] as a
    string. *)
Definition create_document {A} (l : list A) (doc : A) : string * list A :=
  (str (length l), l ++ [doc]).

(** ** main.py: utilities *)

(** [authorization.partition(" ")]: the text before the first space and
    the text after it (both empty parts when there is no space). *)
Fixpoint partition_space (s : string) : string * string :=
  match s with
  | EmptyString => (EmptyString, EmptyString)
  | String c r =>
      if Ascii.eqb c " "%char then (EmptyString, r)
      else let '(scheme, token) := partition_space r in (String c scheme, token)
  end.

(** [scheme.lower()], on ASCII letters. *)
Definition lower_ascii (c : ascii) : ascii :=
  let n := nat_of_ascii c in
  if (65 <=? n)%nat && (n <=? 90)%nat then ascii_of_nat (n + 32) else c.

Fixpoint lower (s : string) : string :=
  match s with
  | EmptyString => EmptyString
  | String c r => String (lower_ascii c) (lower r)
  end.

(** [_user_from_token]: [find_one({"access_tokens": token})]. *)
Definition _user_from_token (s : db) (token : string) : option (ObjectId * User.t) :=
  find_one (fun u => token ∈ User.access_tokens u) (user s).

Definition get_current_user (s : db) (authorization : option string)
    : result (ObjectId * User.t) :=
  if negb (truthy authorization) then
    Raise (HTTPException 401 "Missing Authorization header")
  else
    let '(scheme, token) := partition_space (default "" authorization) in
    if negb (String.eqb (lower scheme) "bearer") || String.eqb token "" then
      Raise (HTTPException 401 "Invalid Authorization header")
    else
      match _user_from_token s token with
      | None => Raise (HTTPException 401 "Invalid or expired token")
      | Some user => Ok user
      end.

(** ** main.py: Auth (OTP) *)

(** The filter [{"email": payload.email} if payload.email else
    {"phone": payload.phone}]. *)
Inductive identifier :=
| by_email (email : option string)
| by_phone (phone : option string).

Definition identifier_of (email phone : option string) : identifier :=
  if truthy email then by_email email else by_phone phone.

Definition matches (i : identifier) (u : User.t) : Prop :=
  match i with
  | by_email e => User.email u = e
  | by_phone p => User.phone u = p
  end.

Global Instance matches_dec i u : Decision (matches i u).
Proof. destruct i; simpl; apply _. Defined.

(** The [$set] of [request_otp] on a document that exists. *)
Definition set_otp (i : identifier) (code : string) (expires : datetime)
    (u : User.t) : User.t :=
  {| User.email := match i with by_email e => e | by_phone _ => User.email u end;
     User.phone := match i with by_email _ => User.phone u | by_phone p => p end;
     User.name := User.name u;
     User.otp_code := Some code;
     User.otp_expires_at := Some expires;
     User.access_tokens := User.access_tokens u |}.

(** The document an upsert inserts: the filter, the [$set] and the
    [$setOnInsert] fields. *)
Definition new_user (i : identifier) (code : string) (expires : datetime) : User.t :=
  {| User.email := match i with by_email e => e | by_phone _ => None end;
     User.phone := match i with by_email _ => None | by_phone p => p end;
     User.name := None;
     User.otp_code := Some code;
     User.otp_expires_at := Some expires;
     User.access_tokens := [] |}.

Record otp_response := {
  otp_message : string;
  otp_code : string;
  otp_expires_at : datetime
}.

(** [code] is the draw of [_random_code()], [now] the clock. *)
Definition request_otp (s : db) (payload : OTPRequest.t) (code : string)
    (now : datetime) : result otp_response * db :=
  if negb (truthy (OTPRequest.email payload)) && negb (truthy (OTPRequest.phone payload)) then
    (Raise (HTTPException 400 "Provide email or phone"), s)
  else
    let identifier := identifier_of (OTPRequest.email payload) (OTPRequest.phone payload) in
    let expires := (now + minutes 10)%Z in
    let users :=
      match find_one (matches identifier) (user s) with
      | Some (i, _) => update_one i (set_otp identifier code expires) (user s)
      | None => user s ++ [new_user identifier code expires]
      end in
    (Ok {| otp_message := "OTP generated"; otp_code := code; otp_expires_at := expires |},
     set_user s users).

(** The update of [verify_otp]: [$set] both OTP fields to [None], [$push]
    the token. *)
Definition consume_otp (token : string) (u : User.t) : User.t :=
  {| User.email := User.email u;
     User.phone := User.phone u;
     User.name := User.name u;
     User.otp_code := None;
     User.otp_expires_at := None;
     User.access_tokens := User.access_tokens u ++ [token] |}.

Record token_response := {
  access_token : string;
  token_type : string
}.

(** [token] is the draw of [_random_token()], [now] the clock. *)
Definition verify_otp (s : db) (payload : OTPVerify.t) (token : string)
    (now : datetime) : result token_response * db :=
  if negb (truthy (OTPVerify.email payload)) && negb (truthy (OTPVerify.phone payload)) then
    (Raise (HTTPException 400 "Provide email or phone"), s)
  else
    let identifier := identifier_of (OTPVerify.email payload) (OTPVerify.phone payload) in
    match find_one (matches identifier) (user s) with
    | None => (Raise (HTTPException 400 "OTP not requested"), s)
    | Some (i, u) =>
        if negb (truthy (User.otp_code u)) then
          (Raise (HTTPException 400 "OTP not requested"), s)
        else if negb (bool_decide (User.otp_code u = Some (OTPVerify.code payload))) then
          (Raise (HTTPException 400 "Invalid OTP"), s)
        else if match User.otp_expires_at u with
                | Some e => (now >? e)%Z
                | None => false
                end then
          (Raise (HTTPException 400 "OTP expired"), s)
        else
          (Ok {| access_token := token; token_type := "bearer" |},
           set_user s (update_one i (consume_otp token) (user s)))
    end.

(** ** main.py: Instances *)

Definition stringify {A} (d : ObjectId * A) : string * A := (str (fst d), snd d).

(** The documents are returned whole, with [_id] turned into a string. *)
Definition list_instances (s : db) (current_user : ObjectId * User.t)
    : list (string * Instance.t) :=
  let instances :=
    find (fun d => Instance.user_id d = str (fst current_user)) (instance s) in
  stringify <$> instances.

Record instance_created := {
  created__id : string;
  created_instance_id : string;
  created_token : string;
  created_is_authenticated : bool
}.

(** [instance_id] and [token] are the draws of [_random_token(10)] and
    [_random_token(32)]. *)
Definition create_instance (s : db) (payload : InstanceCreate.t)
    (current_user : ObjectId * User.t) (instance_id token : string)
    : instance_created * db :=
  let doc :=
    {| Instance.user_id := str (fst current_user);
       Instance.name := InstanceCreate.name payload;
       Instance.instance_id := instance_id;
       Instance.token := token;
       Instance.is_authenticated := false |} in
  let '(new_id, instances) := create_document (instance s) doc in
  ({| created__id := new_id; created_instance_id := instance_id;
      created_token := token; created_is_authenticated := false |},
   set_instance s instances).

(** [{"$set": {"is_authenticated": True}}] *)
Definition set_authenticated (d : Instance.t) : Instance.t :=
  {| Instance.user_id := Instance.user_id d;
     Instance.name := Instance.name d;
     Instance.instance_id := Instance.instance_id d;
     Instance.token := Instance.token d;
     Instance.is_authenticated := true |}.

Definition authenticate_instance (s : db) (instance_id : string)
    (current_user : ObjectId * User.t) : result (string * bool) * db :=
  match find_one (fun d => Instance.instance_id d = instance_id
                           /\ Instance.user_id d = str (fst current_user))
                 (instance s) with
  | None => (Raise (HTTPException 404 "Instance not found"), s)
  | Some (i, _) =>
      (Ok (instance_id, true),
       set_instance s (update_one i set_authenticated (instance s)))
  end.

(** ** main.py: Webhooks *)

Record webhook_registered := {
  registered__id : string;
  registered_message : string
}.

Definition register_webhook (s : db) (payload : RegisterWebhook.t)
    : result webhook_registered * db :=
  match find_one (fun d => Instance.instance_id d = RegisterWebhook.instance_id payload)
                 (instance s) with
  | None => (Raise (HTTPException 401 "Invalid instance credentials"), s)
  | Some (_, inst) =>
      if negb (String.eqb (Instance.token inst) (RegisterWebhook.token payload)) then
        (Raise (HTTPException 401 "Invalid instance credentials"), s)
      else
        let doc :=
          {| Webhook.instance_id := RegisterWebhook.instance_id payload;
             Webhook.url := RegisterWebhook.url payload;
             Webhook.events :=
               or_list (RegisterWebhook.events payload) ["message.status"; "message.incoming"] |} in
        let '(new_id, hooks) := create_document (webhook s) doc in
        (Ok {| registered__id := new_id; registered_message := "Webhook registered" |},
         set_webhook s hooks)
  end.

(** One call [requests.post(url, json={"event": event, "data": data},
    timeout=3)]. Whatever the call does (answer, time out, raise) is
    dropped by the caller, so a call is recorded by what is sent. *)
Record post := {
  post_url : string;
  post_event : string;
  post_data : list (string * string)
}.

(** [_emit_webhook]: the calls made, in order. *)
Definition _emit_webhook (s : db) (instance_id event : string)
    (data : list (string * string)) : list post :=
  let hooks :=
    find (fun h => Webhook.instance_id h = instance_id /\ event ∈ Webhook.events h)
         (webhook s) in
  (fun h => {| post_url := Webhook.url (snd h); post_event := event; post_data := data |})
    <$> hooks.

(** ** main.py: Messages *)

Record message_status := {
  r_message_id : string;
  r_status : string;
  r_error : option string
}.

(** [msg_id] is the draw of [_random_token(12)]. The result is the answer
    (or the exception), the store afterwards and the webhook calls made. *)
Definition send_message (s : db) (payload : SendMessage.t) (msg_id : string)
    : result message_status * db * list post :=
  match find_one (fun d => Instance.instance_id d = SendMessage.instance_id payload)
                 (instance s) with
  | None => (Raise (HTTPException 401 "Invalid instance credentials"), s, [])
  | Some (_, inst) =>
      if negb (String.eqb (Instance.token inst) (SendMessage.token payload)) then
        (Raise (HTTPException 401 "Invalid instance credentials"), s, [])
      else
        let status := if Instance.is_authenticated inst then "sent" else "failed" in
        let error :=
          if String.eqb status "sent" then None
          else Some "Instance not authenticated (scan QR first)" in
        match Message_new
                {| Message.instance_id := SendMessage.instance_id payload;
                   Message.to := SendMessage.to payload;
                   Message.type := or_str (SendMessage.type payload) "text";
                   Message.text := SendMessage.text payload;
                   Message.media_url := SendMessage.media_url payload;
                   Message.interactive := SendMessage.interactive payload;
                   Message.status := status;
                   Message.error := error;
                   Message.message_id := msg_id |} with
        | Raise e => (Raise e, s, [])
        | Ok message_doc =>
            let s' := set_message s (snd (create_document (message s) message_doc)) in
            let posts :=
              if String.eqb status "sent" then
                _emit_webhook s' (SendMessage.instance_id payload) "message.status"
                  [("message_id", msg_id); ("status", "sent")]
              else [] in
            (Ok {| r_message_id := msg_id; r_status := status; r_error := error |},
             s', posts)
        end
  end.

Definition get_message_status (s : db) (message_id : string) : result message_status :=
  match find_one (fun m => Message.message_id m = message_id) (message s) with
  | None => Raise (HTTPException 404 "Message not found")
  | Some (_, msg) =>
      Ok {| r_message_id := Message.message_id msg;
            r_status := Message.status msg;
            r_error := Message.error msg |}
  end.

(** ** The routes *)

(** A request to one of the routes of the lifecycle core, with the draws of
    the random source and the clock reading its handler takes. ([/],
    [/test] and [/schema] touch no document and are left out.) *)
Inductive call :=
| POST_auth_otp_request (payload : OTPRequest.t) (code : string) (now : datetime)
| POST_auth_otp_verify (payload : OTPVerify.t) (token : string) (now : datetime)
| GET_instances (authorization : option string)
| POST_instances (authorization : option string) (payload : InstanceCreate.t)
    (instance_id token : string)
| POST_instances_authenticate (authorization : option string) (instance_id : string)
| POST_webhooks_register (payload : RegisterWebhook.t)
| POST_messages_send (payload : SendMessage.t) (msg_id : string)
| GET_messages_status (message_id : string).

(** What a route answers. *)
Inductive response :=
| otp_generated (r : otp_response)
| token_issued (r : token_response)
| instance_items (items : list (string * Instance.t))
| instance_new (r : instance_created)
| instance_state (instance_id : string) (is_authenticated : bool)
| hook_registered (r : webhook_registered)
| message_state (r : message_status).

Definition lift {A} (f : A -> response) (r : result A) : result response :=
  match r with
  | Ok a => Ok (f a)
  | Raise e => Raise e
  end.

(** A route that [Depends(get_current_user)]. *)
Definition with_current_user (s : db) (authorization : option string)
    (k : ObjectId * User.t -> result response * db * list post)
    : result response * db * list post :=
  match get_current_user s authorization with
  | Raise e => (Raise e, s, [])
  | Ok current_user => k current_user
  end.

Definition handle (s : db) (c : call) : result response * db * list post :=
  match c with
  | POST_auth_otp_request payload code now =>
      let '(r, s') := request_otp s payload code now in (lift otp_generated r, s', [])
  | POST_auth_otp_verify payload token now =>
      let '(r, s') := verify_otp s payload token now in (lift token_issued r, s', [])
  | GET_instances authorization =>
      with_current_user s authorization (fun current_user =>
        (Ok (instance_items (list_instances s current_user)), s, []))
  | POST_instances authorization payload instance_id token =>
      with_current_user s authorization (fun current_user =>
        let '(r, s') := create_instance s payload current_user instance_id token in
        (Ok (instance_new r), s', []))
  | POST_instances_authenticate authorization instance_id =>
      with_current_user s authorization (fun current_user =>
        let '(r, s') := authenticate_instance s instance_id current_user in
        (lift (fun r => instance_state (fst r) (snd r)) r, s', []))
  | POST_webhooks_register payload =>
      let '(r, s') := register_webhook s payload in (lift hook_registered r, s', [])
  | POST_messages_send payload msg_id =>
      let '(r, s', posts) := send_message s payload msg_id in (lift message_state r, s', posts)
  | GET_messages_status message_id =>
      (lift message_state (get_message_status s message_id), s, [])
  end.

Definition answer (x : result response * db * list post) : result response := fst (fst x).
Definition store (x : result response * db * list post) : db := snd (fst x).
Definition posts (x : result response * db * list post) : list post := snd x.

(** The store after a sequence of requests. *)
Definition run (s : db) (cs : list call) : db :=
  foldl (fun s c => store (handle s c)) s cs.

(** ** Notions the statements use *)

(** The message [send_message] builds for a payload, an id and a status. *)
Definition message_doc (payload : SendMessage.t) (msg_id status : string)
    (error : option string) : Message.t :=
  {| Message.instance_id := SendMessage.instance_id payload;
     Message.to := SendMessage.to payload;
     Message.type := or_str (SendMessage.type payload) "text";
     Message.text := SendMessage.text payload;
     Message.media_url := SendMessage.media_url payload;
     Message.interactive := SendMessage.interactive payload;
     Message.status := status;
     Message.error := error;
     Message.message_id := msg_id |}.

(** The instance-credential check passes: the instance that [find_one]
    matches for the public id is [inst], and its token is the one shown. *)
Definition credentials_ok (s : db) (instance_id token : string) (inst : Instance.t) : Prop :=
  exists i,
    find_one (fun d => Instance.instance_id d = instance_id) (instance s) = Some (i, inst)
    /\ Instance.token inst = token.

(** The instance-credential check fails: no instance matches the public
    id, or the matched instance stores another token. *)
Definition credentials_bad (s : db) (instance_id token : string) : Prop :=
  find_one (fun d => Instance.instance_id d = instance_id) (instance s) = None
  \/ exists i inst,
       find_one (fun d => Instance.instance_id d = instance_id) (instance s) = Some (i, inst)
       /\ Instance.token inst <> token.

(** [type] is left out, empty, or one of the six literals. *)
Definition type_accepted (payload : SendMessage.t) : Prop :=
  or_str (SendMessage.type payload) "text" ∈ Message.type_literal.

Definition not_authenticated_error : option string :=
  Some "Instance not authenticated (scan QR first)".

(** The webhooks registered for a public instance id that subscribe to an
    event. *)
Definition subscribers (s : db) (instance_id event : string) : list Webhook.t :=
  filter (fun h => Webhook.instance_id h = instance_id /\ event ∈ Webhook.events h)
         (webhook s).

(** The notification [send_message] sends to a webhook. *)
Definition status_post (msg_id : string) (h : Webhook.t) : post :=
  {| post_url := Webhook.url h;
     post_event := "message.status";
     post_data := [("message_id", msg_id); ("status", "sent")] |}.

(** The user a verify payload addresses has an OTP pending: the code
    [code] (not empty), expiring at [expires]. *)
Definition pending_otp (s : db) (payload : OTPVerify.t) (code : string)
    (expires : datetime) : Prop :=
  truthy (OTPVerify.email payload) || truthy (OTPVerify.phone payload) = true
  /\ code <> ""
  /\ exists i u,
       find_one (matches (identifier_of (OTPVerify.email payload) (OTPVerify.phone payload)))
                (user s) = Some (i, u)
       /\ User.otp_code u = Some code
       /\ User.otp_expires_at u = Some expires.

(** Two versions of one instance document: every field but the flag. *)
Definition same_instance (d d' : Instance.t) : Prop :=
  Instance.user_id d' = Instance.user_id d
  /\ Instance.name d' = Instance.name d
  /\ Instance.instance_id d' = Instance.instance_id d
  /\ Instance.token d' = Instance.token d.

(** ** A session, for the examples

    One user signs up by OTP and creates an instance; every random draw
    has the length and alphabet of its generator. *)

Definition alice_bearer : string := "k3Vx9QeT1mZr8LwYb2NcHs7UdJf0GpAo5RiX6tEa".
Definition alice_authorization : option string := Some ("Bearer " +:+ alice_bearer).
Definition demo_instance_id : string := "q7Lm2ZxP0a".
Definition demo_token : string := "Wd4sR8uJ1kNf6Tq0Yb3Zc9Ve5Ha2Lm7X".
Definition demo_msg_id : string := "p0Qz8Rk3Wm5T".

Definition alice_request : OTPRequest.t :=
  {| OTPRequest.email := Some "alice@example.com"; OTPRequest.phone := None |}.

Definition alice_verify (code : string) : OTPVerify.t :=
  {| OTPVerify.email := Some "alice@example.com"; OTPVerify.phone := None;
     OTPVerify.code := code |}.

Definition demo_send (type : option string) : SendMessage.t :=
  {| SendMessage.instance_id := demo_instance_id;
     SendMessage.token := demo_token;
     SendMessage.to := "+15550100";
     SendMessage.type := type;
     SendMessage.text := Some "hello";
     SendMessage.media_url := None;
     SendMessage.interactive := None |}.

Definition demo_hook (events : option (list string)) : RegisterWebhook.t :=
  {| RegisterWebhook.instance_id := demo_instance_id;
     RegisterWebhook.token := demo_token;
     RegisterWebhook.url := "https://hooks.example.com/status";
     RegisterWebhook.events := events |}.

Definition signup : list call :=
  [ POST_auth_otp_request alice_request "493817" 0%Z;
    POST_auth_otp_verify (alice_verify "493817") alice_bearer 1000000%Z;
    POST_instances alice_authorization {| InstanceCreate.name := "phone" |}
      demo_instance_id demo_token ].

(** The store after sign-up: one instance, not authenticated. *)
Definition db_created : db := Eval vm_compute in run empty_db signup.

(** The same, with two webhooks registered and the instance authenticated. *)
Definition db_authenticated : db :=
  Eval vm_compute in
    run db_created
      [ POST_webhooks_register (demo_hook None);
        POST_webhooks_register (demo_hook (Some ["message.incoming"]));
        POST_instances_authenticate alice_authorization demo_instance_id ].

(** The instance document of the session, as created. *)
Definition demo_instance : Instance.t :=
  {| Instance.user_id := "0"; Instance.name := "phone";
     Instance.instance_id := demo_instance_id; Instance.token := demo_token;
     Instance.is_authenticated := false |}.

(** A request body with both identifiers. *)
Definition both_given : OTPRequest.t :=
  {| OTPRequest.email := Some "alice@example.com"; OTPRequest.phone := Some "+15550100" |}.

(** The store while Alice's first OTP is pending. *)
Definition db_otp_pending : db :=
  Eval vm_compute in run empty_db [POST_auth_otp_request alice_request "493817" 0%Z].

(** The store after a send on the instance before it was authenticated,
    and its authentication afterwards. *)
Definition db_failed_then_authenticated : db :=
  Eval vm_compute in
    run db_created
      [ POST_messages_send (demo_send None) demo_msg_id;
        POST_instances_authenticate alice_authorization demo_instance_id ].

(** ** main.py: the random source *)

(** [string.digits] and [string.ascii_letters]. *)
Definition digits : string := "0123456789".
Definition ascii_letters : string :=
  "abcdefghijklmnopqrstuvwxyzABCDEFGHIJKLMNOPQRSTUVWXYZ".

(** [secrets.choice(seq)] is [seq[randbelow(len(seq))]]: [r] is the
    entropy the draw consumes, brought below the length. *)
Definition choice (seq : string) (r : nat) : ascii :=
  default "000"%char (String.get (r mod String.length seq) seq).

(** ["".join(secrets.choice(alphabet) for _ in range(length))]; the
    [k]-th draw consumes [entropy k]. *)
Definition join_choices (alphabet : string) (entropy : nat -> nat) (length : nat) : string :=
  string_of_list_ascii ((fun k => choice alphabet (entropy k)) <$> seq 0 length).

Definition _random_code (entropy : nat -> nat) (length : nat) : string :=
  join_choices digits entropy length.

Definition _random_token (entropy : nat -> nat) (length : nat) : string :=
  let alphabet := ascii_letters +:+ digits in
  join_choices alphabet entropy length.

(** ** Shapes of stored documents *)

(** A user has one identifier, the email or the phone, and its two OTP
    fields are set or null together. *)
Definition user_ok (u : User.t) : Prop :=
  ((truthy (User.email u) = true /\ User.phone u = None)
   \/ (User.email u = None /\ truthy (User.phone u) = true))
  /\ (User.otp_code u = None <-> User.otp_expires_at u = None).

(** An instance is owned by a stored user. *)
Definition instance_ok (s : db) (d : Instance.t) : Prop :=
  exists i u, user s !! i = Some u /\ Instance.user_id d = str i.

(** A message has a type of the model, is "sent" without error or
    "failed" with the fixed error, and names a stored instance. *)
Definition message_ok (s : db) (m : Message.t) : Prop :=
  Message.type m ∈ Message.type_literal
  /\ ((Message.status m = "sent" /\ Message.error m = None)
      \/ (Message.status m = "failed" /\ Message.error m = not_authenticated_error))
  /\ exists d, d ∈ instance s /\ Instance.instance_id d = Message.instance_id m.

(** A webhook subscribes to at least one event and names a stored
    instance. *)
Definition webhook_ok (s : db) (h : Webhook.t) : Prop :=
  Webhook.events h <> []
  /\ exists d, d ∈ instance s /\ Instance.instance_id d = Webhook.instance_id h.

Definition db_ok (s : db) : Prop :=
  Forall user_ok (user s)
  /\ Forall (instance_ok s) (instance s)
  /\ Forall (message_ok s) (message s)
  /\ Forall (webhook_ok s) (webhook s).

(** Alice as [get_current_user] resolves her after the sign-up. *)
Definition alice : ObjectId * User.t :=
  (0, {| User.email := Some "alice@example.com"; User.phone := None;
         User.name := None; User.otp_code := None; User.otp_expires_at := None;
         User.access_tokens := [alice_bearer] |}).

(** The draws of a small fixed source, for the examples. *)
Definition demo_entropy (k : nat) : nat := 7 * k + 3.

(** ** Lookup lemmas *)

Section find.
Context {A : Type} (P : A -> Prop) `{forall x, Decision (P x)}.

(** [find] lists exactly the matching documents, once each, in order. *)
Lemma find_imap_snd (g : nat -> ObjectId) (l : list A) :
  snd <$> filter (fun d => P (snd d)) (imap (fun i x => (g i, x)) l) = filter P l.
Proof.
  revert g. induction l as [|x l IH]; intros g; [reflexivity|].
  cbn [imap]. rewrite !filter_cons. cbn [snd].
  destruct (decide (P x)); cbn [fmap list_fmap]; [f_equal|]; apply (IH (g ∘ S)).
Qed.

Lemma find_snd (l : list A) : snd <$> find P l = filter P l.
Proof. apply (find_imap_snd id). Qed.

Lemma elem_of_find (l : list A) (i : ObjectId) (x : A) :
  (i, x) ∈ find P l <-> l !! i = Some x /\ P x.
Proof.
  unfold find. rewrite list_elem_of_filter, elem_of_lookup_imap. cbn [snd]. split.
  - intros [? (j & y & [= -> ->] & ?)]. done.
  - intros [? ?]. split; [done|]. by exists i, x.
Qed.

Lemma find_one_Some (l : list A) (i : ObjectId) (x : A) :
  find_one P l = Some (i, x) -> l !! i = Some x /\ P x.
Proof. unfold find_one. rewrite list_find_Some. tauto. Qed.

Lemma find_one_app_l (l l' : list A) (r : ObjectId * A) :
  find_one P l = Some r -> find_one P (l ++ l') = Some r.
Proof. destruct r. apply list_find_app_l. Qed.

Lemma find_one_snoc_fresh (l : list A) (x : A) :
  find_one P l = None -> P x -> find_one P (l ++ [x]) = Some (length l, x).
Proof.
  intros Hn Hx. unfold find_one in *. rewrite list_find_app_r by done.
  cbn. rewrite decide_True by done. reflexivity.
Qed.

(** An update that keeps the filter's verdict keeps what [find_one] finds. *)
Lemma find_one_update_one (f : A -> A) (l : list A) (i : ObjectId) :
  (forall x, P (f x) <-> P x) ->
  find_one P (update_one i f l)
  = (fun r => (fst r, if decide (fst r = i) then f (snd r) else snd r)) <$> find_one P l.
Proof.
  intros Hf. unfold find_one, update_one. revert i.
  induction l as [|x l IH]; intros i; [reflexivity|].
  destruct i as [|i]; cbn [alter list_alter list_find].
  - destruct (decide (P x)) as [Hx|Hx].
    + rewrite decide_True by (by apply Hf). reflexivity.
    + rewrite decide_False by (by rewrite Hf).
      destruct (list_find P l) as [[j y]|]; reflexivity.
  - destruct (decide (P x)) as [Hx|Hx]; [reflexivity|].
    change (list_find P (list_alter f i l)) with (list_find P (alter f i l)).
    rewrite IH. destruct (list_find P l) as [[j y]|]; cbn; [|reflexivity].
    repeat case_decide; first [reflexivity | lia].
Qed.
End find.

(** ** Message Dispatcher *)

Lemma Message_new_failed (payload : SendMessage.t) msg_id :
  type_accepted payload ->
  Message_new (message_doc payload msg_id "failed" not_authenticated_error)
  = Ok (message_doc payload msg_id "failed" not_authenticated_error).
Proof.
  intros Ht. unfold Message_new. cbn [Message.type Message.status message_doc].
  rewrite bool_decide_eq_true_2 by exact Ht. reflexivity.
Qed.

Lemma Message_new_sent (payload : SendMessage.t) msg_id :
  type_accepted payload ->
  Message_new (message_doc payload msg_id "sent" None)
  = Ok (message_doc payload msg_id "sent" None).
Proof.
  intros Ht. unfold Message_new. cbn [Message.type Message.status message_doc].
  rewrite bool_decide_eq_true_2 by exact Ht. reflexivity.
Qed.

Lemma Message_new_rejected (payload : SendMessage.t) msg_id status error :
  ~ type_accepted payload ->
  Message_new (message_doc payload msg_id status error) = Raise ValidationError.
Proof.
  intros Ht. unfold Message_new. cbn [Message.type message_doc].
  rewrite bool_decide_eq_false_2 by exact Ht. reflexivity.
Qed.

Lemma send_message_eq s payload msg_id inst :
  credentials_ok s (SendMessage.instance_id payload) (SendMessage.token payload) inst ->
  send_message s payload msg_id =
    let status := if Instance.is_authenticated inst then "sent" else "failed" in
    let error := if Instance.is_authenticated inst then None else not_authenticated_error in
    match Message_new (message_doc payload msg_id status error) with
    | Raise e => (Raise e, s, [])
    | Ok doc =>
        (Ok {| r_message_id := msg_id; r_status := status; r_error := error |},
         set_message s (message s ++ [doc]),
         if Instance.is_authenticated inst then
           _emit_webhook s (SendMessage.instance_id payload) "message.status"
             [("message_id", msg_id); ("status", "sent")]
         else [])
    end.
Proof.
  intros (i & Hf & Ht). unfold send_message. rewrite Hf, Ht, String.eqb_refl.
  cbn [negb]. destruct (Instance.is_authenticated inst); reflexivity.
Qed.


Lemma emit_webhook_subscribers s instance_id msg_id :
  _emit_webhook s instance_id "message.status" [("message_id", msg_id); ("status", "sent")]
  = status_post msg_id <$> subscribers s instance_id "message.status".
Proof.
  unfold _emit_webhook, subscribers.
  rewrite <- (find_snd (fun h => Webhook.instance_id h = instance_id
                                 /\ "message.status" ∈ Webhook.events h)).
  rewrite <- list_fmap_compose. reflexivity.
Qed.

Lemma credentials_ok_created :
  credentials_ok db_created demo_instance_id demo_token
    {| Instance.user_id := "0"; Instance.name := "phone";
       Instance.instance_id := demo_instance_id; Instance.token := demo_token;
       Instance.is_authenticated := false |}.
Proof. exists 0. split; reflexivity. Qed.

Lemma credentials_ok_authenticated :
  credentials_ok db_authenticated demo_instance_id demo_token
    {| Instance.user_id := "0"; Instance.name := "phone";
       Instance.instance_id := demo_instance_id; Instance.token := demo_token;
       Instance.is_authenticated := true |}.
Proof. exists 0. split; reflexivity. Qed.

Lemma type_accepted_text : type_accepted (demo_send None).
Proof. apply (bool_decide_unpack _). vm_compute. exact I. Qed.

Lemma type_rejected_sticker : ~ type_accepted (demo_send (Some "sticker")).
Proof. apply (bool_decide_unpack _). vm_compute. exact I. Qed.

(** C1, as stated, fails: on an instance that is not authenticated, a
    send whose [type] is outside the literals passes the credential check
    and answers no status at all, it raises the model's validation error. *)
Lemma send_message_unauthenticated_not_always_failed :
  ~ (forall s payload msg_id inst,
       credentials_ok s (SendMessage.instance_id payload) (SendMessage.token payload) inst ->
       Instance.is_authenticated inst = false ->
       exists s',
         send_message s payload msg_id =
           (Ok {| r_message_id := msg_id; r_status := "failed";
                  r_error := Some "Instance not authenticated (scan QR first)" |},
            s', [])).
Proof.
  intros H.
  destruct (H db_created (demo_send (Some "sticker")) demo_msg_id _
              credentials_ok_created eq_refl) as [s' Hs'].
  vm_compute in Hs'. discriminate Hs'.
Qed.

(** A send whose [type] is outside the literals is refused by the
    [Message] model after the credential check: nothing is stored and no
    webhook is called. *)
Lemma send_message_type_rejected s payload msg_id inst :
  credentials_ok s (SendMessage.instance_id payload) (SendMessage.token payload) inst ->
  ~ type_accepted payload ->
  send_message s payload msg_id = (Raise ValidationError, s, []).
Proof.
  intros Hc Ht. rewrite (send_message_eq _ _ _ _ Hc). cbn zeta.
  rewrite Message_new_rejected by exact Ht. reflexivity.
Qed.

(** C1 (amended): a send that passes the instance-credential check on an
    instance with [is_authenticated == false], and whose [type] is left
    out, empty or one of the six literals of the [Message] model, answers
    status "failed" with the error "Instance not authenticated (scan QR
    first)", and makes no webhook call. *)
Theorem send_message_unauthenticated s payload msg_id inst :
  credentials_ok s (SendMessage.instance_id payload) (SendMessage.token payload) inst ->
  Instance.is_authenticated inst = false ->
  type_accepted payload ->
  exists s',
    send_message s payload msg_id =
      (Ok {| r_message_id := msg_id; r_status := "failed";
             r_error := Some "Instance not authenticated (scan QR first)" |},
       s', []).
Proof.
  intros Hc Ha Ht. rewrite (send_message_eq _ _ _ _ Hc), Ha. cbn zeta.
  rewrite Message_new_failed by exact Ht. eauto.
Qed.

Lemma send_message_unauthenticated_witness :
  exists s',
    send_message db_created (demo_send None) demo_msg_id =
      (Ok {| r_message_id := demo_msg_id; r_status := "failed";
             r_error := Some "Instance not authenticated (scan QR first)" |},
       s', []).
Proof.
  exact (send_message_unauthenticated db_created (demo_send None) demo_msg_id _
           credentials_ok_created eq_refl type_accepted_text).
Defined.

(** C2, as stated, fails: on an authenticated instance, a send whose
    [type] is outside the literals passes the credential check, answers no
    status and notifies no webhook, although one is subscribed. *)
Lemma send_message_authenticated_not_always_sent :
  ~ (forall s payload msg_id inst,
       credentials_ok s (SendMessage.instance_id payload) (SendMessage.token payload) inst ->
       Instance.is_authenticated inst = true ->
       exists s',
         send_message s payload msg_id =
           (Ok {| r_message_id := msg_id; r_status := "sent"; r_error := None |},
            s',
            status_post msg_id
              <$> subscribers s (SendMessage.instance_id payload) "message.status")).
Proof.
  intros H.
  destruct (H db_authenticated (demo_send (Some "sticker")) demo_msg_id _
              credentials_ok_authenticated eq_refl) as [s' Hs'].
  vm_compute in Hs'. discriminate Hs'.
Qed.

(** C2 (amended): a send that passes the instance-credential check on an
    instance with [is_authenticated == true], and whose [type] is left
    out, empty or one of the six literals, answers status "sent" with
    error null, and the webhook calls it makes are exactly one call, with
    event "message.status" and data [{message_id, status}], per webhook
    registered for that instance id whose events contain "message.status",
    in the order of registration. *)
Theorem send_message_authenticated s payload msg_id inst :
  credentials_ok s (SendMessage.instance_id payload) (SendMessage.token payload) inst ->
  Instance.is_authenticated inst = true ->
  type_accepted payload ->
  exists s',
    send_message s payload msg_id =
      (Ok {| r_message_id := msg_id; r_status := "sent"; r_error := None |},
       s',
       status_post msg_id
         <$> subscribers s (SendMessage.instance_id payload) "message.status").
Proof.
  intros Hc Ha Ht. rewrite (send_message_eq _ _ _ _ Hc), Ha. cbn zeta.
  rewrite Message_new_sent by exact Ht. rewrite emit_webhook_subscribers. eauto.
Qed.

Lemma send_message_authenticated_witness :
  exists s',
    send_message db_authenticated (demo_send None) demo_msg_id =
      (Ok {| r_message_id := demo_msg_id; r_status := "sent"; r_error := None |},
       s',
       status_post demo_msg_id
         <$> subscribers db_authenticated demo_instance_id "message.status").
Proof.
  exact (send_message_authenticated db_authenticated (demo_send None) demo_msg_id _
           credentials_ok_authenticated eq_refl type_accepted_text).
Defined.

Lemma credentials_bad_unknown : credentials_bad db_created "nosuchinst" demo_token.
Proof. left. reflexivity. Qed.

Lemma credentials_bad_near_miss :
  credentials_bad db_created demo_instance_id "Wd4sR8uJ1kNf6Tq0Yb3Zc9Ve5Ha2Lm7x".
Proof. right. eexists _, _. split; [reflexivity|]. discriminate. Qed.

(** C7: when no instance matches the public id, or the token shown differs
    in any way from the token the matched instance stores, both
    [send_message] and [register_webhook] raise Unauthorized (401,
    "Invalid instance credentials"), and leave the store as it was. *)
Theorem bad_credentials_unauthorized s instance_id token :
  credentials_bad s instance_id token ->
  (forall payload msg_id,
     SendMessage.instance_id payload = instance_id ->
     SendMessage.token payload = token ->
     send_message s payload msg_id = (Raise Unauthorized, s, []))
  /\ (forall payload,
        RegisterWebhook.instance_id payload = instance_id ->
        RegisterWebhook.token payload = token ->
        register_webhook s payload = (Raise Unauthorized, s)).
Proof.
  intros Hbad. split.
  - intros payload msg_id <- <-. unfold send_message.
    destruct Hbad as [-> | (i & inst & -> & Hne)]; [reflexivity|].
    apply String.eqb_neq in Hne. rewrite Hne. reflexivity.
  - intros payload <- <-. unfold register_webhook.
    destruct Hbad as [-> | (i & inst & -> & Hne)]; [reflexivity|].
    apply String.eqb_neq in Hne. rewrite Hne. reflexivity.
Qed.

Lemma bad_credentials_unauthorized_witness :
  send_message db_created
    {| SendMessage.instance_id := demo_instance_id;
       SendMessage.token := "Wd4sR8uJ1kNf6Tq0Yb3Zc9Ve5Ha2Lm7x";
       SendMessage.to := "+15550100"; SendMessage.type := None;
       SendMessage.text := Some "hello"; SendMessage.media_url := None;
       SendMessage.interactive := None |} demo_msg_id
  = (Raise Unauthorized, db_created, [])
  /\ register_webhook db_created
       {| RegisterWebhook.instance_id := "nosuchinst";
          RegisterWebhook.token := demo_token;
          RegisterWebhook.url := "https://hooks.example.com/status";
          RegisterWebhook.events := None |}
     = (Raise Unauthorized, db_created).
Proof.
  split.
  - apply (bad_credentials_unauthorized db_created demo_instance_id _
             credentials_bad_near_miss); reflexivity.
  - apply (bad_credentials_unauthorized db_created "nosuchinst" demo_token
             credentials_bad_unknown); reflexivity.
Defined.

(** C10: when [send_message] raises Unauthorized the store is the one it
    was given (so no message document was inserted) and no webhook call
    was made. *)
Theorem send_message_unauthorized_atomic s payload msg_id s' calls :
  send_message s payload msg_id = (Raise Unauthorized, s', calls) ->
  s' = s /\ message s' = message s /\ calls = [].
Proof.
  unfold send_message.
  destruct (find_one _ (instance s)) as [[i inst]|]; [|by intros [= <- <-]].
  destruct (negb _); [by intros [= <- <-]|].
  destruct (Message_new _) as [doc|e]; [discriminate|].
  intros [= -> <- <-]. done.
Qed.

Lemma send_message_unauthorized_atomic_witness :
  db_created = db_created /\ message db_created = message db_created
  /\ (@nil post) = [].
Proof.
  exact (send_message_unauthorized_atomic db_created
           {| SendMessage.instance_id := "nosuchinst";
              SendMessage.token := demo_token;
              SendMessage.to := "+15550100"; SendMessage.type := None;
              SendMessage.text := Some "hello"; SendMessage.media_url := None;
              SendMessage.interactive := None |} demo_msg_id db_created [] eq_refl).
Defined.

(** ** OTP Session Issuer *)

(** C4, as stated, fails: with an email and a phone both given,
    [request_otp] does not raise InvalidRequest, it issues a code. *)
Lemma request_otp_both_given_accepted :
  ~ (forall s payload code now,
       xorb (truthy (OTPRequest.email payload)) (truthy (OTPRequest.phone payload)) = false ->
       fst (request_otp s payload code now) = Raise InvalidRequest).
Proof.
  intros H. specialize (H empty_db both_given "493817" 0%Z eq_refl).
  vm_compute in H. discriminate H.
Qed.

(** C4 (amended): [request_otp] raises InvalidRequest exactly when neither
    email nor phone is non-empty. When both are given it does not fail:
    it proceeds as if only the email had been given. *)
Theorem request_otp_invalid_request s payload code now :
  (fst (request_otp s payload code now) = Raise InvalidRequest
   <-> truthy (OTPRequest.email payload) = false
       /\ truthy (OTPRequest.phone payload) = false)
  /\ (truthy (OTPRequest.email payload) = true ->
      request_otp s payload code now
      = request_otp s {| OTPRequest.email := OTPRequest.email payload;
                         OTPRequest.phone := None |} code now).
Proof.
  unfold request_otp, identifier_of. cbn [OTPRequest.email OTPRequest.phone].
  destruct (truthy (OTPRequest.email payload)), (truthy (OTPRequest.phone payload));
    cbn [negb andb fst]; split; try (intros _; reflexivity); try discriminate;
    split; try discriminate; intuition (try discriminate; auto).
Qed.

Lemma request_otp_invalid_request_witness :
  request_otp empty_db both_given "493817" 0%Z
  = request_otp empty_db alice_request "493817" 0%Z.
Proof.
  exact (proj2 (request_otp_invalid_request empty_db both_given "493817" 0%Z) eq_refl).
Defined.

Lemma pending_otp_alice (submitted : string) :
  pending_otp db_otp_pending (alice_verify submitted) "493817" (minutes 10).
Proof.
  split; [reflexivity|]. split; [discriminate|]. eexists 0, _.
  split; [reflexivity|]. split; reflexivity.
Qed.

(** C5, as stated, fails: with the OTP expired and a code submitted that is
    not the pending one, [verify_otp] raises InvalidCode, not Expired. *)
Lemma verify_otp_expired_wrong_code :
  ~ (forall s payload code expires token now,
       pending_otp s payload code expires ->
       (expires < now)%Z ->
       fst (verify_otp s payload token now) = Raise Expired).
Proof.
  intros H.
  specialize (H db_otp_pending (alice_verify "000000") "493817" (minutes 10)
                alice_bearer (minutes 11) (pending_otp_alice _) eq_refl).
  vm_compute in H. discriminate H.
Qed.

(** C5 (amended): for a user with a pending OTP whose expiry is in the
    past, [verify_otp] with the pending code raises Expired, and with any
    other code raises InvalidCode (the code is compared before the expiry
    is looked at); the store is left as it was. *)
Theorem verify_otp_expired s payload code expires token now :
  pending_otp s payload code expires ->
  (expires < now)%Z ->
  (OTPVerify.code payload = code ->
     verify_otp s payload token now = (Raise Expired, s))
  /\ (OTPVerify.code payload <> code ->
        verify_otp s payload token now = (Raise InvalidCode, s)).
Proof.
  intros (Hid & Hne & i & u & Hf & Hc & He) Hlt. unfold verify_otp.
  apply orb_true_iff in Hid.
  assert (negb (truthy (OTPVerify.email payload))
          && negb (truthy (OTPVerify.phone payload)) = false) as ->.
  { destruct Hid as [-> | ->]; [reflexivity | apply andb_false_r]. }
  rewrite Hf, Hc, He. cbn [truthy].
  apply String.eqb_neq in Hne. rewrite Hne. cbn [negb].
  split; intros Hcode.
  - rewrite bool_decide_eq_true_2 by congruence. cbn [negb].
    assert ((now >? expires)%Z = true) as -> by lia. reflexivity.
  - rewrite bool_decide_eq_false_2 by congruence. reflexivity.
Qed.

Lemma verify_otp_expired_witness :
  verify_otp db_otp_pending (alice_verify "493817") alice_bearer (minutes 11)
  = (Raise Expired, db_otp_pending)
  /\ verify_otp db_otp_pending (alice_verify "000000") alice_bearer (minutes 11)
     = (Raise InvalidCode, db_otp_pending).
Proof.
  split.
  - apply (verify_otp_expired db_otp_pending (alice_verify "493817") "493817" (minutes 10)
             alice_bearer (minutes 11) (pending_otp_alice _) eq_refl). reflexivity.
  - apply (verify_otp_expired db_otp_pending (alice_verify "000000") "493817" (minutes 10)
             alice_bearer (minutes 11) (pending_otp_alice _) eq_refl). discriminate.
Defined.

Lemma matches_consume_otp ident token u :
  matches ident (consume_otp token u) <-> matches ident u.
Proof. destruct ident; reflexivity. Qed.

(** C6: a [verify_otp] that succeeds leaves the user's [otp_code] and
    [otp_expires_at] at null, so a second [verify_otp] with the same
    identifier and code (whatever the clock and the token draw) raises
    NotRequested. *)
Theorem verify_otp_consumes s payload token now r s' :
  verify_otp s payload token now = (Ok r, s') ->
  (exists i u,
     find_one (matches (identifier_of (OTPVerify.email payload) (OTPVerify.phone payload)))
              (user s') = Some (i, u)
     /\ User.otp_code u = None
     /\ User.otp_expires_at u = None)
  /\ (forall token' now',
        verify_otp s' payload token' now' = (Raise NotRequested, s')).
Proof.
  unfold verify_otp.
  destruct (negb (truthy (OTPVerify.email payload))
            && negb (truthy (OTPVerify.phone payload))) eqn:Hid; [discriminate|].
  set (ident := identifier_of _ _).
  destruct (find_one (matches ident) (user s)) as [[i u]|] eqn:Hf; [|discriminate].
  destruct (negb (truthy (User.otp_code u))); [discriminate|].
  destruct (negb (bool_decide _)); [discriminate|].
  destruct (match User.otp_expires_at u with Some _ => _ | None => _ end); [discriminate|].
  intros [= <- <-].
  assert (find_one (matches ident) (user (set_user s (update_one i (consume_otp token) (user s))))
          = Some (i, consume_otp token u)) as Hf'.
  { cbn [user set_user].
    rewrite (find_one_update_one _ _ _ _ (matches_consume_otp ident token)), Hf.
    cbn. rewrite decide_True by reflexivity. reflexivity. }
  split.
  - exists i, (consume_otp token u). auto.
  - intros token' now'. rewrite Hf'. reflexivity.
Qed.

Lemma verify_otp_consumes_witness :
  (exists i u,
     find_one (matches (by_email (Some "alice@example.com")))
              (user (snd (verify_otp db_otp_pending (alice_verify "493817") alice_bearer 1000000%Z)))
     = Some (i, u)
     /\ User.otp_code u = None
     /\ User.otp_expires_at u = None)
  /\ (forall token' now',
        verify_otp (snd (verify_otp db_otp_pending (alice_verify "493817") alice_bearer 1000000%Z))
                   (alice_verify "493817") token' now'
        = (Raise NotRequested,
           snd (verify_otp db_otp_pending (alice_verify "493817") alice_bearer 1000000%Z))).
Proof.
  exact (verify_otp_consumes db_otp_pending (alice_verify "493817") alice_bearer 1000000%Z
           _ _ eq_refl).
Defined.

(** ** What a request does to the collections *)

(** The OTP routes write to the users only. *)
Lemma request_otp_frame s payload code now :
  let s' := snd (request_otp s payload code now) in
  instance s' = instance s /\ message s' = message s /\ webhook s' = webhook s.
Proof. unfold request_otp. destruct (_ && _); cbn; auto. Qed.

Lemma verify_otp_frame s payload token now :
  let s' := snd (verify_otp s payload token now) in
  instance s' = instance s /\ message s' = message s /\ webhook s' = webhook s.
Proof.
  unfold verify_otp. destruct (_ && _); [cbn; auto|].
  destruct (find_one _ _) as [[i u]|]; [|cbn; auto].
  destruct (negb (truthy _)); [cbn; auto|].
  destruct (negb (bool_decide _)); [cbn; auto|].
  destruct (match User.otp_expires_at u with Some _ => _ | None => _ end); cbn; auto.
Qed.

(** A request leaves the messages as they are or appends one. *)
Lemma handle_message s c :
  message (store (handle s c)) = message s
  \/ exists doc, message (store (handle s c)) = message s ++ [doc].
Proof.
  destruct c; cbn [handle]; unfold with_current_user.
  - pose proof (request_otp_frame s payload code now) as (_ & Hm & _).
    destruct (request_otp s payload code now). by left.
  - pose proof (verify_otp_frame s payload token now) as (_ & Hm & _).
    destruct (verify_otp s payload token now). by left.
  - destruct (get_current_user s authorization); by left.
  - destruct (get_current_user s authorization); by left.
  - destruct (get_current_user s authorization); [|by left].
    unfold authenticate_instance. destruct (find_one _ _) as [[i d]|]; by left.
  - unfold register_webhook. destruct (find_one _ _) as [[i d]|]; [|by left].
    destruct (negb _); by left.
  - unfold send_message. destruct (find_one _ _) as [[i d]|]; [|by left].
    destruct (negb _); [by left|].
    destruct (Message_new _) as [doc|e]; [|by left].
    right. by exists doc.
  - by left.
Qed.

Lemma run_message s cs : exists l, message (run s cs) = message s ++ l.
Proof.
  revert s. induction cs as [|c cs IH]; intros s.
  - exists []. symmetry. apply app_nil_r.
  - cbn [run foldl]. destruct (IH (store (handle s c))) as [l Hl].
    unfold run in Hl. rewrite Hl.
    destruct (handle_message s c) as [-> | [doc ->]]; [by exists l|].
    exists (doc :: l). by rewrite <- app_assoc.
Qed.

(** ** Round trip *)

Lemma Message_new_Ok m doc : Message_new m = Ok doc -> doc = m.
Proof. unfold Message_new. destruct (_ && _); congruence. Qed.

(** A stored message whose id was new when it was appended is the one
    [get_message_status] reads, whatever was appended after it. *)
Lemma get_message_status_stored (l0 : list Message.t) doc l s :
  find_one (fun m => Message.message_id m = Message.message_id doc) l0 = None ->
  message s = l0 ++ [doc] ++ l ->
  get_message_status s (Message.message_id doc)
  = Ok {| r_message_id := Message.message_id doc;
          r_status := Message.status doc;
          r_error := Message.error doc |}.
Proof.
  intros Hfresh Hs. unfold get_message_status. rewrite Hs, app_assoc.
  rewrite (find_one_app_l _ _ l (length l0, doc)); [reflexivity|].
  apply find_one_snoc_fresh; [exact Hfresh|reflexivity].
Qed.

(** C8, as stated, fails: nothing keeps the drawn message id apart from
    the ids already stored, and [get_message_status] answers from the
    first message with the id. When a send draws the id of an older
    message that failed, it answers "sent" and the status read back is
    "failed". *)
Lemma get_message_status_after_send_collision :
  ~ (forall s payload msg_id r s' calls,
       send_message s payload msg_id = (Ok r, s', calls) ->
       get_message_status s' (r_message_id r) = Ok r).
Proof.
  intros H.
  specialize (H db_failed_then_authenticated (demo_send None) demo_msg_id _ _ _ eq_refl).
  vm_compute in H. discriminate H.
Qed.

(** C8 (amended): for every message created by [send_message] under an id
    that no stored message has yet, [get_message_status] with that id
    answers exactly the triple [send_message] answered, right after the
    send and after any further requests to this core (none of them
    changes or removes a stored message). *)
Theorem get_message_status_after_send s payload msg_id r s' calls :
  send_message s payload msg_id = (Ok r, s', calls) ->
  find_one (fun m => Message.message_id m = msg_id) (message s) = None ->
  r_message_id r = msg_id
  /\ get_message_status s' (r_message_id r) = Ok r
  /\ (forall cs, get_message_status (run s' cs) (r_message_id r) = Ok r).
Proof.
  intros Hs Hfresh. unfold send_message in Hs.
  destruct (find_one _ (instance s)) as [[i inst]|]; [|discriminate].
  destruct (negb _); [discriminate|].
  destruct (Message_new _) as [doc|e] eqn:Hdoc; [|discriminate].
  apply Message_new_Ok in Hdoc. injection Hs as <- <- _.
  cbn [r_message_id create_document snd].
  assert (Message.message_id doc = msg_id) as Hid by (subst doc; reflexivity).
  assert (Ok {| r_message_id := Message.message_id doc;
                r_status := Message.status doc;
                r_error := Message.error doc |}
          = Ok {| r_message_id := msg_id;
                  r_status := if Instance.is_authenticated inst then "sent" else "failed";
                  r_error :=
                    if String.eqb (if Instance.is_authenticated inst then "sent" else "failed")
                                  "sent"
                    then None else Some "Instance not authenticated (scan QR first)" |})
    as <- by (subst doc; reflexivity).
  rewrite <- Hid in Hfresh |- *. clear Hid Hdoc.
  split; [reflexivity|]. split.
  - apply (get_message_status_stored (message s) doc []); [exact Hfresh|reflexivity].
  - intros cs. destruct (run_message (set_message s (message s ++ [doc])) cs) as [l Hl].
    apply (get_message_status_stored (message s) doc l); [exact Hfresh|].
    rewrite Hl. cbn [message set_message]. symmetry. apply app_assoc.
Qed.

Lemma get_message_status_after_send_witness :
  r_message_id {| r_message_id := demo_msg_id; r_status := "failed";
                  r_error := not_authenticated_error |} = demo_msg_id
  /\ get_message_status (snd (fst (send_message db_created (demo_send None) demo_msg_id)))
       demo_msg_id
     = Ok {| r_message_id := demo_msg_id; r_status := "failed";
             r_error := not_authenticated_error |}
  /\ (forall cs,
        get_message_status
          (run (snd (fst (send_message db_created (demo_send None) demo_msg_id))) cs)
          demo_msg_id
        = Ok {| r_message_id := demo_msg_id; r_status := "failed";
                r_error := not_authenticated_error |}).
Proof.
  exact (get_message_status_after_send db_created (demo_send None) demo_msg_id
           _ _ _ eq_refl eq_refl).
Defined.

(** ** Instance Registry *)

(** What a request does to the instances: nothing, or it appends one that
    is not authenticated ([create_instance]), or it sets the flag of the
    instance found for the public id and the caller
    ([authenticate_instance]). *)
Lemma handle_instance s c :
  instance (store (handle s c)) = instance s
  \/ (exists authorization payload instance_id token current_user,
        c = POST_instances authorization payload instance_id token
        /\ get_current_user s authorization = Ok current_user
        /\ instance (store (handle s c))
           = instance s ++ [ {| Instance.user_id := str (fst current_user);
                                Instance.name := InstanceCreate.name payload;
                                Instance.instance_id := instance_id;
                                Instance.token := token;
                                Instance.is_authenticated := false |} ])
  \/ (exists authorization instance_id current_user i d,
        c = POST_instances_authenticate authorization instance_id
        /\ get_current_user s authorization = Ok current_user
        /\ find_one (fun d => Instance.instance_id d = instance_id
                              /\ Instance.user_id d = str (fst current_user))
                    (instance s) = Some (i, d)
        /\ instance (store (handle s c)) = update_one i set_authenticated (instance s)).
Proof.
  destruct c; cbn [handle]; unfold with_current_user.
  - pose proof (request_otp_frame s payload code now) as (Hi & _).
    destruct (request_otp s payload code now). by left.
  - pose proof (verify_otp_frame s payload token now) as (Hi & _).
    destruct (verify_otp s payload token now). by left.
  - destruct (get_current_user s authorization); by left.
  - destruct (get_current_user s authorization) as [cu|] eqn:Hcu; [|by left].
    right; left. by exists authorization, payload, instance_id, token, cu.
  - destruct (get_current_user s authorization) as [cu|] eqn:Hcu; [|by left].
    unfold authenticate_instance.
    destruct (find_one _ _) as [[i d]|] eqn:Hf; [|by left].
    right; right. by exists authorization, instance_id, cu, i, d.
  - unfold register_webhook. destruct (find_one _ _) as [[i d]|]; [|by left].
    destruct (negb _); by left.
  - unfold send_message. destruct (find_one _ _) as [[i d]|]; [|by left].
    destruct (negb _); [by left|].
    destruct (Message_new _) as [doc|e]; by left.
  - by left.
Qed.

Lemma same_instance_refl d : same_instance d d.
Proof. repeat split. Qed.

Lemma same_instance_trans d1 d2 d3 :
  same_instance d1 d2 -> same_instance d2 d3 -> same_instance d1 d3.
Proof. unfold same_instance. intuition congruence. Qed.

Lemma same_instance_set_authenticated d : same_instance d (set_authenticated d).
Proof. repeat split. Qed.

(** One request, seen from a stored instance: the document stays in its
    place with its fields, its flag does not go back to false, and it
    goes from false to true only under [authenticate_instance] for its own
    public id by the user who owns it. *)
Lemma handle_instance_flag s c i d :
  instance s !! i = Some d ->
  exists d',
    instance (store (handle s c)) !! i = Some d'
    /\ same_instance d d'
    /\ (Instance.is_authenticated d = true -> Instance.is_authenticated d' = true)
    /\ (Instance.is_authenticated d = false -> Instance.is_authenticated d' = true ->
        exists authorization current_user,
          c = POST_instances_authenticate authorization (Instance.instance_id d)
          /\ get_current_user s authorization = Ok current_user
          /\ Instance.user_id d = str (fst current_user)).
Proof.
  intros Hd.
  destruct (handle_instance s c)
    as [-> | [(a & p & iid & tok & cu & _ & _ & ->)
             | (a & iid & cu & j & dj & -> & Hcu & Hf & ->)]].
  - exists d. split; [done|]. split; [apply same_instance_refl|].
    split; [done|]. congruence.
  - exists d. split; [by apply lookup_app_l_Some|]. split; [apply same_instance_refl|].
    split; [done|]. congruence.
  - apply find_one_Some in Hf as [Hj [Hiid Huid]]. unfold update_one.
    destruct (decide (i = j)) as [->|Hij].
    + assert (dj = d) as -> by (unfold ObjectId in *; congruence).
      exists (set_authenticated d). rewrite list_lookup_alter_eq, Hd.
      split; [done|]. split; [apply same_instance_set_authenticated|].
      split; [done|]. intros _ _. exists a, cu. by rewrite Hiid.
    + exists d. rewrite list_lookup_alter_ne by done.
      split; [done|]. split; [apply same_instance_refl|]. split; [done|]. congruence.
Qed.





(** What [list_instances] lists: the stored documents of the caller. *)
Lemma elem_of_list_instances s current_user x :
  x ∈ list_instances s current_user
  <-> exists i d,
        x = (str i, d)
        /\ instance s !! i = Some d
        /\ Instance.user_id d = str (fst current_user).
Proof.
  unfold list_instances. rewrite list_elem_of_fmap. split.
  - intros ([i d] & -> & Hin). apply elem_of_find in Hin. by exists i, d.
  - intros (i & d & -> & Hi & Hu). exists (i, d). split; [reflexivity|].
    by apply elem_of_find.
Qed.




(** ** The session, step by step *)

(** Before authentication a send is stored as failed and calls no
    webhook; after it, the same send is answered "sent" and the one
    webhook subscribed to "message.status" is called once. *)
Example send_before_and_after_authenticate :
  fst (send_message db_created (demo_send None) demo_msg_id)
  = (Ok {| r_message_id := demo_msg_id; r_status := "failed";
           r_error := Some "Instance not authenticated (scan QR first)" |},
     set_message db_created
       [message_doc (demo_send None) demo_msg_id "failed" not_authenticated_error])
  /\ snd (send_message db_created (demo_send None) demo_msg_id) = []
  /\ fst (fst (send_message db_authenticated (demo_send None) demo_msg_id))
     = Ok {| r_message_id := demo_msg_id; r_status := "sent"; r_error := None |}
  /\ snd (send_message db_authenticated (demo_send None) demo_msg_id)
     = [ {| post_url := "https://hooks.example.com/status";
            post_event := "message.status";
            post_data := [("message_id", demo_msg_id); ("status", "sent")] |} ].
Proof. repeat split. Qed.

(** A type the [Message] model does not know stops the send. *)
Example send_sticker :
  send_message db_created (demo_send (Some "sticker")) demo_msg_id
  = (Raise ValidationError, db_created, []).
Proof.
  exact (send_message_type_rejected db_created (demo_send (Some "sticker")) demo_msg_id _
           credentials_ok_created type_rejected_sticker).
Qed.

(** The message id drawn twice: the second send is answered "sent", the
    status read back is the one of the first message with the id. *)
Example send_same_id_twice :
  fst (fst (send_message db_failed_then_authenticated (demo_send None) demo_msg_id))
  = Ok {| r_message_id := demo_msg_id; r_status := "sent"; r_error := None |}
  /\ get_message_status
       (snd (fst (send_message db_failed_then_authenticated (demo_send None) demo_msg_id)))
       demo_msg_id
     = Ok {| r_message_id := demo_msg_id; r_status := "failed";
             r_error := Some "Instance not authenticated (scan QR first)" |}.
Proof. split; reflexivity. Qed.

(** An expired OTP: the right code is told "OTP expired", a wrong one
    "Invalid OTP". *)
Example verify_after_expiry :
  fst (verify_otp db_otp_pending (alice_verify "493817") alice_bearer (minutes 11))
  = Raise (HTTPException 400 "OTP expired")
  /\ fst (verify_otp db_otp_pending (alice_verify "000000") alice_bearer (minutes 11))
     = Raise (HTTPException 400 "Invalid OTP").
Proof. split; reflexivity. Qed.

(** The listing of Alice's instances shows the token. *)
Example list_shows_token :
  answer (handle db_created (GET_instances alice_authorization))
  = Ok (instance_items [("0", demo_instance)]).
Proof. reflexivity. Qed.

(** ** The random source *)

Lemma get_lookup (s : string) (i : nat) :
  String.get i s = list_ascii_of_string s !! i.
Proof.
  revert i. induction s as [|c s IH]; intros [|i]; cbn; try reflexivity. apply IH.
Qed.

Lemma length_list_ascii (s : string) :
  length (list_ascii_of_string s) = String.length s.
Proof. induction s as [|c s IH]; cbn; [reflexivity|]. by rewrite IH. Qed.

Lemma choice_elem_of (seq : string) (r : nat) :
  seq <> "" -> choice seq r ∈ list_ascii_of_string seq.
Proof.
  intros Hne. unfold choice. rewrite get_lookup.
  assert (r mod String.length seq < length (list_ascii_of_string seq)) as Hlt.
  { rewrite length_list_ascii. apply Nat.mod_upper_bound. by destruct seq. }
  apply lookup_lt_is_Some in Hlt as [c Hc]. rewrite Hc. cbn.
  by apply list_elem_of_lookup_2 in Hc.
Qed.

Lemma choice_index (seq : string) (c : ascii) :
  c ∈ list_ascii_of_string seq -> exists r, choice seq r = c.
Proof.
  intros [i Hi]%list_elem_of_lookup_1. exists i. unfold choice.
  rewrite Nat.mod_small, get_lookup, Hi; [reflexivity|].
  rewrite <- length_list_ascii. by apply lookup_lt_Some in Hi.
Qed.

(** The strings [join_choices] can give are exactly the strings of the
    asked length over the alphabet. *)
Lemma join_choices_range (alphabet : string) (length : nat) (t : string) :
  alphabet <> "" ->
  (exists entropy, join_choices alphabet entropy length = t)
  <-> String.length t = length
      /\ Forall (fun c => c ∈ list_ascii_of_string alphabet) (list_ascii_of_string t).
Proof.
  intros Hne. unfold join_choices. split.
  - intros [entropy <-]. rewrite <- length_list_ascii.
    rewrite list_ascii_of_string_of_list_ascii, length_fmap, length_seq.
    split; [reflexivity|]. apply Forall_fmap, Forall_forall.
    intros k _. by apply choice_elem_of.
  - intros [Hlen Hall]. rewrite <- length_list_ascii in Hlen.
    rewrite <- (string_of_list_ascii_of_string t).
    revert length Hlen Hall. generalize (list_ascii_of_string t) as cs. clear t.
    induction cs as [|c cs IH] using rev_ind; intros length Hlen Hall.
    + cbn in Hlen. subst length. by exists (fun _ => 0).
    + rewrite length_app in Hlen. cbn in Hlen.
      apply Forall_app in Hall as [Hcs Hc]. rewrite Forall_singleton in Hc.
      destruct (IH (List.length cs) eq_refl Hcs) as [entropy He].
      destruct (choice_index alphabet c Hc) as [r Hr].
      exists (fun k => if decide (k = List.length cs) then r else entropy k).
      subst length. replace (List.length cs + 1) with (S (List.length cs)) by lia.
      rewrite seq_S, fmap_app. cbn. rewrite decide_True by reflexivity. rewrite Hr.
      f_equal. f_equal.
      apply (f_equal list_ascii_of_string) in He.
      rewrite !list_ascii_of_string_of_list_ascii in He.
      etrans; [|exact He]. apply list_fmap_ext. intros i k Hk.
      apply lookup_seq in Hk as [-> Hlt]. cbn. by rewrite decide_False by lia.
Qed.

(** X1: the codes [_random_code(length)] can draw are exactly the
    strings of [length] decimal digits. *)
Theorem random_code_range (length : nat) (t : string) :
  (exists entropy, _random_code entropy length = t)
  <-> String.length t = length
      /\ Forall (fun c => c ∈ list_ascii_of_string "0123456789") (list_ascii_of_string t).
Proof. apply join_choices_range. discriminate. Qed.

(** X2: the tokens [_random_token(length)] can draw are exactly the
    strings of [length] ASCII letters and digits. *)
Theorem random_token_range (length : nat) (t : string) :
  (exists entropy, _random_token entropy length = t)
  <-> String.length t = length
      /\ Forall (fun c => c ∈ list_ascii_of_string
                   "abcdefghijklmnopqrstuvwxyzABCDEFGHIJKLMNOPQRSTUVWXYZ0123456789")
                (list_ascii_of_string t).
Proof. apply (join_choices_range (ascii_letters +:+ digits)). discriminate. Qed.

Example random_code_demo : _random_code demo_entropy 6 = "307418".
Proof. reflexivity. Qed.

(** ** Bearer-token resolver *)

Lemma partition_space_inv (a scheme token : string) :
  partition_space a = (scheme, token) ->
  token <> "" ->
  a = scheme +:+ " " +:+ token.
Proof.
  revert scheme. induction a as [|c a IH]; intros scheme Hp Hne; cbn in Hp.
  - injection Hp as <- <-. done.
  - destruct (Ascii.eqb_spec c " ") as [->|Hc].
    + by injection Hp as <- <-.
    + destruct (partition_space a) as [sch tok]. injection Hp as <- <-.
      change (String c a = String c (sch +:+ " " +:+ tok)). f_equal. by apply IH.
Qed.

Lemma lower_ascii_space (c : ascii) :
  lower_ascii c <> " "%char -> Ascii.eqb c " " = false.
Proof.
  intros Hne. destruct (Ascii.eqb_spec c " ") as [->|]; [|reflexivity].
  by destruct Hne.
Qed.

(** A scheme that reads "bearer" in lower case holds no space, so the
    header splits right after it. *)
Lemma partition_space_bearer (scheme token : string) :
  lower scheme = "bearer" ->
  partition_space (scheme +:+ " " +:+ token) = (scheme, token).
Proof.
  intros Hl.
  do 6 (destruct scheme as [|? scheme]; [discriminate Hl|];
        cbn [lower] in Hl; injection Hl as ? Hl).
  destruct scheme; [|discriminate Hl].
  simpl.
  repeat match goal with
         | H : lower_ascii ?c = _ |- context [Ascii.eqb ?c " "] =>
             rewrite (lower_ascii_space c) by (rewrite H; discriminate)
         end.
  reflexivity.
Qed.

(** X3: [get_current_user] raises nothing but HTTP 401, and the user it
    returns is the first stored user whose [access_tokens] hold the text
    after the first space of a header whose scheme reads "bearer" in any
    letter case. *)
Theorem get_current_user_outcome s authorization :
  match get_current_user s authorization with
  | Raise e => exists detail, e = HTTPException 401 detail
  | Ok (i, u) =>
      user s !! i = Some u
      /\ exists scheme token,
           authorization = Some (scheme +:+ " " +:+ token)
           /\ lower scheme = "bearer"
           /\ token <> ""
           /\ token ∈ User.access_tokens u
           /\ forall j u', user s !! j = Some u' -> j < i ->
                           token ∉ User.access_tokens u'
  end.
Proof.
  unfold get_current_user. destruct (negb (truthy authorization)) eqn:Ht; [by eexists|].
  destruct authorization as [a|]; [|discriminate Ht].
  change (default "" (Some a)) with a.
  destruct (partition_space a) as [scheme token] eqn:Hp.
  destruct (String.eqb_spec (lower scheme) "bearer") as [Hs|]; cbn [negb orb];
    [|by eexists].
  destruct (String.eqb_spec token "") as [|Hne]; [by eexists|].
  unfold _user_from_token, find_one.
  destruct (list_find _ (user s)) as [[i u]|] eqn:Hf; [|by eexists].
  apply list_find_Some in Hf as (Hi & Hin & Hfirst). split; [exact Hi|].
  exists scheme, token. split; [f_equal; by apply partition_space_inv|].
  split; [exact Hs|]. split; [exact Hne|]. split; [exact Hin|]. exact Hfirst.
Qed.

(** X4: the scheme is read without regard to letter case: with any
    spelling of "bearer" and a non-empty token, the header resolves to
    the first user holding the token, or to 401 "Invalid or expired
    token" when no user holds it. *)
Theorem get_current_user_any_case s scheme token :
  lower scheme = "bearer" ->
  token <> "" ->
  get_current_user s (Some (scheme +:+ " " +:+ token))
  = match _user_from_token s token with
    | None => Raise (HTTPException 401 "Invalid or expired token")
    | Some user => Ok user
    end.
Proof.
  intros Hs Hne. unfold get_current_user.
  assert (truthy (Some (scheme +:+ " " +:+ token)) = true) as ->.
  { destruct scheme; [discriminate Hs|reflexivity]. }
  cbn [negb]. change (default "" (Some ?a)) with a.
  rewrite (partition_space_bearer _ _ Hs), Hs.
  apply String.eqb_neq in Hne. rewrite Hne. reflexivity.
Qed.

Lemma get_current_user_any_case_witness :
  get_current_user db_created (Some ("BeArEr" +:+ " " +:+ alice_bearer))
  = match _user_from_token db_created alice_bearer with
    | None => Raise (HTTPException 401 "Invalid or expired token")
    | Some user => Ok user
    end.
Proof.
  apply (get_current_user_any_case db_created "BeArEr" alice_bearer);
    [reflexivity|discriminate].
Defined.

(** ** OTP: request, verify, sessions *)

Section find_at.
Context {A : Type} (P : A -> Prop) `{forall x, Decision (P x)}.

(** An update of the document found keeps it found when it still matches. *)
Lemma find_one_update_found (f : A -> A) (l : list A) (i : ObjectId) (x : A) :
  find_one P l = Some (i, x) -> P (f x) ->
  find_one P (update_one i f l) = Some (i, f x).
Proof.
  unfold find_one, update_one. intros Hf Hfx.
  apply list_find_Some in Hf as (Hi & Hx & Hfirst). apply list_find_Some.
  split; [by rewrite list_lookup_alter_eq, Hi|]. split; [exact Hfx|].
  intros j y Hj Hlt. rewrite list_lookup_alter_ne in Hj by lia. by apply (Hfirst j).
Qed.
End find_at.

Lemma identifier_truthy (email phone : option string) :
  truthy email || truthy phone = true ->
  match identifier_of email phone with
  | by_email e => e = email /\ truthy e = true
  | by_phone p => p = phone /\ truthy p = true /\ truthy email = false
  end.
Proof.
  unfold identifier_of. destruct (truthy email) eqn:He; cbn; intros Hp; auto.
Qed.

Lemma matches_set_otp ident code expires u :
  matches ident (set_otp ident code expires u).
Proof. destruct ident; reflexivity. Qed.

Lemma matches_new_user ident code expires :
  matches ident (new_user ident code expires).
Proof. destruct ident; reflexivity. Qed.

(** What [request_otp] does once an identifier is given. *)
Lemma request_otp_eq s payload code now :
  truthy (OTPRequest.email payload) || truthy (OTPRequest.phone payload) = true ->
  let ident := identifier_of (OTPRequest.email payload) (OTPRequest.phone payload) in
  let expires := (now + minutes 10)%Z in
  request_otp s payload code now
  = (Ok {| otp_message := "OTP generated"; otp_code := code; otp_expires_at := expires |},
     set_user s
       match find_one (matches ident) (user s) with
       | Some (i, _) => update_one i (set_otp ident code expires) (user s)
       | None => user s ++ [new_user ident code expires]
       end).
Proof.
  intros Ht. unfold request_otp.
  assert (negb (truthy (OTPRequest.email payload))
          && negb (truthy (OTPRequest.phone payload)) = false) as ->; [|reflexivity].
  apply orb_true_iff in Ht as [-> | ->]; [reflexivity|apply andb_false_r].
Qed.

(** After [request_otp] the user addressed has the code pending, to
    expire ten minutes later. *)
Lemma request_otp_pending s payload code now :
  truthy (OTPRequest.email payload) || truthy (OTPRequest.phone payload) = true ->
  exists i u,
    find_one (matches (identifier_of (OTPRequest.email payload) (OTPRequest.phone payload)))
             (user (snd (request_otp s payload code now))) = Some (i, u)
    /\ User.otp_code u = Some code
    /\ User.otp_expires_at u = Some (now + minutes 10)%Z.
Proof.
  intros Ht. rewrite (request_otp_eq _ _ _ _ Ht). cbn [snd user set_user].
  set (ident := identifier_of _ _).
  destruct (find_one (matches ident) (user s)) as [[i u]|] eqn:Hf.
  - exists i, (set_otp ident code (now + minutes 10)%Z u).
    split; [|by split]. apply find_one_update_found; [exact Hf|apply matches_set_otp].
  - exists (length (user s)), (new_user ident code (now + minutes 10)%Z).
    split; [|by split]. apply find_one_snoc_fresh; [exact Hf|apply matches_new_user].
Qed.

Lemma random_code_nonempty entropy : _random_code entropy 6 <> "".
Proof.
  intros He. assert (String.length (_random_code entropy 6) = 6) as Hl.
  { apply (join_choices_range digits 6); [discriminate|by exists entropy]. }
  rewrite He in Hl. discriminate Hl.
Qed.

(** X5: the code [request_otp] draws verifies for the same identifier at
    every instant up to one millisecond short of ten minutes after the
    request, giving the bearer token drawn; at every instant later than
    ten minutes after the request it is answered "OTP expired". (The
    last millisecond is left open: a store that keeps dates to the
    millisecond may round the expiry down within it.) *)
Theorem request_then_verify s email phone entropy now token now' :
  truthy email || truthy phone = true ->
  let code := _random_code entropy 6 in
  let verified :=
    fst (verify_otp
           (snd (request_otp s {| OTPRequest.email := email; OTPRequest.phone := phone |}
                   code now))
           {| OTPVerify.email := email; OTPVerify.phone := phone; OTPVerify.code := code |}
           token now') in
  ((now' <= now + minutes 10 - 1000)%Z ->
     verified = Ok {| access_token := token; token_type := "bearer" |})
  /\ ((now' > now + minutes 10)%Z -> verified = Raise Expired).
Proof.
  intros Ht code verified. subst verified.
  destruct (request_otp_pending s {| OTPRequest.email := email; OTPRequest.phone := phone |}
              code now Ht) as (i & u & Hf & Hc & He).
  cbn [OTPRequest.email OTPRequest.phone] in Hf.
  unfold verify_otp. cbn [OTPVerify.email OTPVerify.phone OTPVerify.code].
  assert (negb (truthy email) && negb (truthy phone) = false) as ->.
  { apply orb_true_iff in Ht as [-> | ->]; [reflexivity|apply andb_false_r]. }
  rewrite Hf, Hc, He. cbn [truthy].
  pose proof (random_code_nonempty entropy) as Hne. fold code in Hne.
  apply String.eqb_neq in Hne. rewrite Hne. cbn [negb].
  rewrite bool_decide_eq_true_2 by reflexivity. cbn [negb].
  split; intros Hn.
  - assert ((now' >? now + minutes 10)%Z = false) as -> by lia. reflexivity.
  - assert ((now' >? now + minutes 10)%Z = true) as -> by lia. reflexivity.
Qed.

Lemma request_then_verify_witness :
  fst (verify_otp
         (snd (request_otp empty_db alice_request (_random_code demo_entropy 6) 0%Z))
         (alice_verify (_random_code demo_entropy 6)) alice_bearer (minutes 9))
  = Ok {| access_token := alice_bearer; token_type := "bearer" |}
  /\ fst (verify_otp
            (snd (request_otp empty_db alice_request (_random_code demo_entropy 6) 0%Z))
            (alice_verify (_random_code demo_entropy 6)) alice_bearer (minutes 11))
     = Raise Expired.
Proof.
  split.
  - apply (request_then_verify empty_db (Some "alice@example.com") None demo_entropy 0%Z
             alice_bearer (minutes 9) eq_refl). discriminate.
  - apply (request_then_verify empty_db (Some "alice@example.com") None demo_entropy 0%Z
             alice_bearer (minutes 11) eq_refl). reflexivity.
Defined.

(** X6: a second [request_otp] for the same identifier replaces the
    pending code: the earlier code is then answered "Invalid OTP", at
    any time. *)
Theorem request_again_invalidates s email phone code1 now1 code2 now2 token now' :
  truthy email || truthy phone = true ->
  code2 <> "" ->
  code1 <> code2 ->
  let payload := {| OTPRequest.email := email; OTPRequest.phone := phone |} in
  let s2 := snd (request_otp (snd (request_otp s payload code1 now1)) payload code2 now2) in
  verify_otp s2
    {| OTPVerify.email := email; OTPVerify.phone := phone; OTPVerify.code := code1 |}
    token now'
  = (Raise InvalidCode, s2).
Proof.
  intros Ht Hne Hdiff payload s2.
  destruct (request_otp_pending (snd (request_otp s payload code1 now1)) payload
              code2 now2 Ht) as (i & u & Hf & Hc & He).
  fold s2 in Hf. cbn [payload OTPRequest.email OTPRequest.phone] in Hf.
  unfold verify_otp. cbn [OTPVerify.email OTPVerify.phone OTPVerify.code].
  assert (negb (truthy email) && negb (truthy phone) = false) as ->.
  { apply orb_true_iff in Ht as [-> | ->]; [reflexivity|apply andb_false_r]. }
  rewrite Hf, Hc. cbn [truthy].
  apply String.eqb_neq in Hne. rewrite Hne. cbn [negb].
  rewrite bool_decide_eq_false_2 by congruence. reflexivity.
Qed.

Lemma request_again_invalidates_witness :
  verify_otp
    (snd (request_otp (snd (request_otp empty_db alice_request "493817" 0%Z))
            alice_request "120965" 1000000%Z))
    (alice_verify "493817") alice_bearer 2000000%Z
  = (Raise InvalidCode,
     snd (request_otp (snd (request_otp empty_db alice_request "493817" 0%Z))
            alice_request "120965" 1000000%Z)).
Proof.
  apply (request_again_invalidates empty_db (Some "alice@example.com") None
           "493817" 0%Z "120965" 1000000%Z alice_bearer 2000000%Z);
    [reflexivity|discriminate|discriminate].
Defined.

(** What a request does to the users: nothing, or [request_otp] sets the
    OTP of the user found or appends a user, or [verify_otp] consumes the
    OTP of the user found. *)
Lemma handle_user s c :
  user (store (handle s c)) = user s
  \/ (exists payload code now,
        c = POST_auth_otp_request payload code now
        /\ truthy (OTPRequest.email payload) || truthy (OTPRequest.phone payload) = true
        /\ let ident :=
             identifier_of (OTPRequest.email payload) (OTPRequest.phone payload) in
           (exists i u,
              find_one (matches ident) (user s) = Some (i, u)
              /\ user (store (handle s c))
                 = update_one i (set_otp ident code (now + minutes 10)%Z) (user s))
           \/ (find_one (matches ident) (user s) = None
               /\ user (store (handle s c))
                  = user s ++ [new_user ident code (now + minutes 10)%Z]))
  \/ (exists payload token now i u,
        c = POST_auth_otp_verify payload token now
        /\ find_one (matches (identifier_of (OTPVerify.email payload)
                                (OTPVerify.phone payload))) (user s) = Some (i, u)
        /\ user (store (handle s c)) = update_one i (consume_otp token) (user s)).
Proof.
  destruct c; cbn [handle]; unfold with_current_user.
  - destruct (truthy (OTPRequest.email payload) || truthy (OTPRequest.phone payload))
      eqn:Ht.
    + right; left. exists payload, code, now. split; [reflexivity|]. split; [exact Ht|].
      rewrite (request_otp_eq _ _ _ _ Ht). cbn [store fst snd user set_user].
      destruct (find_one _ (user s)) as [[i u]|]; [left; by exists i, u|by right].
    + left. unfold request_otp. apply orb_false_iff in Ht as [-> ->]. reflexivity.
  - unfold verify_otp. destruct (_ && _); [by left|].
    destruct (find_one _ (user s)) as [[i u]|] eqn:Hf; [|by left].
    destruct (negb (truthy _)); [by left|].
    destruct (negb (bool_decide _)); [by left|].
    destruct (match User.otp_expires_at u with Some _ => _ | None => _ end); [by left|].
    right; right. by exists payload, token, now, i, u.
  - destruct (get_current_user s authorization); by left.
  - destruct (get_current_user s authorization); by left.
  - destruct (get_current_user s authorization); [|by left].
    unfold authenticate_instance. destruct (find_one _ _) as [[i d]|]; by left.
  - unfold register_webhook. destruct (find_one _ _) as [[i d]|]; [|by left].
    destruct (negb _); by left.
  - unfold send_message. destruct (find_one _ _) as [[i d]|]; [|by left].
    destruct (negb _); [by left|].
    destruct (Message_new _) as [doc|e]; by left.
  - by left.
Qed.

(** One request, seen from a stored user: the document stays in its
    place with its identifiers and name, and its tokens are kept, with at
    most new ones after them. *)
Lemma handle_user_kept s c i u :
  user s !! i = Some u ->
  exists u' l,
    user (store (handle s c)) !! i = Some u'
    /\ User.email u' = User.email u
    /\ User.phone u' = User.phone u
    /\ User.name u' = User.name u
    /\ User.access_tokens u' = User.access_tokens u ++ l.
Proof.
  intros Hu.
  destruct (handle_user s c)
    as [-> | [(p & code & now & _ & Ht & [(j & uj & Hf & ->) | (_ & ->)])
             | (p & token & now & j & uj & _ & Hf & ->)]].
  - exists u, []. rewrite app_nil_r. done.
  - apply find_one_Some in Hf as [Hj Hm]. unfold update_one.
    destruct (decide (i = j)) as [->|Hij].
    + assert (uj = u) as -> by (unfold ObjectId in *; congruence).
      eexists _, []. rewrite list_lookup_alter_eq, Hu, app_nil_r. cbn.
      split; [reflexivity|].
      destruct (identifier_of _ _); cbn in Hm |- *; by rewrite ?Hm.
    + exists u, []. rewrite list_lookup_alter_ne, app_nil_r by done. done.
  - exists u, []. rewrite app_nil_r. split; [by apply lookup_app_l_Some|done].
  - unfold update_one. destruct (decide (i = j)) as [->|Hij].
    + exists (consume_otp token u), [token].
      rewrite list_lookup_alter_eq, Hu. done.
    + exists u, []. rewrite list_lookup_alter_ne, app_nil_r by done. done.
Qed.

Lemma run_user_kept cs : forall s i u,
  user s !! i = Some u ->
  exists u' l,
    user (run s cs) !! i = Some u'
    /\ User.email u' = User.email u
    /\ User.phone u' = User.phone u
    /\ User.name u' = User.name u
    /\ User.access_tokens u' = User.access_tokens u ++ l.
Proof.
  induction cs as [|c cs IH]; intros s i u Hu.
  - exists u, []. rewrite app_nil_r. done.
  - destruct (handle_user_kept s c i u Hu) as (u1 & l1 & Hu1 & He1 & Hp1 & Hn1 & Ht1).
    destruct (IH (store (handle s c)) i u1 Hu1) as (u' & l & Hu' & He & Hp & Hn & Htk).
    exists u', (l1 ++ l). split; [exact Hu'|].
    rewrite He, Hp, Hn, Htk, Ht1, app_assoc. done.
Qed.

(** X7: [request_otp] is an upsert. It adds a user only when no stored
    user has the identifier, and then exactly one, without name or
    tokens; otherwise the number of users stays. Either way every stored
    user keeps its place, identifiers, name and access tokens. *)
Theorem request_otp_upsert s payload code now :
  truthy (OTPRequest.email payload) || truthy (OTPRequest.phone payload) = true ->
  let ident := identifier_of (OTPRequest.email payload) (OTPRequest.phone payload) in
  let s' := snd (request_otp s payload code now) in
  (match find_one (matches ident) (user s) with
   | Some _ => length (user s') = length (user s)
   | None =>
       exists u,
         user s' = user s ++ [u]
         /\ matches ident u
         /\ User.name u = None
         /\ User.access_tokens u = []
   end)
  /\ (forall i u,
        user s !! i = Some u ->
        exists u',
          user s' !! i = Some u'
          /\ User.email u' = User.email u
          /\ User.phone u' = User.phone u
          /\ User.name u' = User.name u
          /\ User.access_tokens u' = User.access_tokens u).
Proof.
  intros Ht ident s'. subst s'. rewrite (request_otp_eq _ _ _ _ Ht).
  cbn [snd user set_user]. fold ident.
  destruct (find_one (matches ident) (user s)) as [[j uj]|] eqn:Hf.
  - split; [unfold update_one; by rewrite length_alter|].
    intros i u Hu. apply find_one_Some in Hf as [Hj Hm]. unfold update_one.
    destruct (decide (i = j)) as [->|Hij].
    + assert (uj = u) as -> by (unfold ObjectId in *; congruence).
      eexists. rewrite list_lookup_alter_eq, Hu. cbn. split; [reflexivity|].
      destruct ident; cbn in Hm |- *; by rewrite ?Hm.
    + exists u. by rewrite list_lookup_alter_ne by done.
  - split.
    + eexists. split; [reflexivity|]. split; [apply matches_new_user|done].
    + intros i u Hu. exists u. split; [by apply lookup_app_l_Some|done].
Qed.

Lemma request_otp_upsert_witness :
  length (user (snd (request_otp db_otp_pending alice_request "120965" 1000000%Z)))
  = length (user db_otp_pending).
Proof.
  exact (proj1 (request_otp_upsert db_otp_pending alice_request "120965" 1000000%Z
                  eq_refl)).
Defined.

(** X8: a request that raises, on any route, leaves the store as it was
    and calls no webhook. *)
Theorem handle_raise_atomic s c e :
  answer (handle s c) = Raise e ->
  store (handle s c) = s /\ posts (handle s c) = [].
Proof.
  unfold answer, store, posts.
  destruct c; cbn [handle]; unfold with_current_user.
  - unfold request_otp. destruct (_ && _); [done|discriminate].
  - unfold verify_otp. destruct (_ && _); [done|].
    destruct (find_one _ (user s)) as [[i u]|]; [|done].
    destruct (negb (truthy _)); [done|].
    destruct (negb (bool_decide _)); [done|].
    destruct (match User.otp_expires_at u with Some _ => _ | None => _ end);
      [done|discriminate].
  - destruct (get_current_user s authorization); [discriminate|done].
  - destruct (get_current_user s authorization); [discriminate|done].
  - destruct (get_current_user s authorization); [|done].
    unfold authenticate_instance. destruct (find_one _ _) as [[i d]|]; [discriminate|done].
  - unfold register_webhook. destruct (find_one _ _) as [[i d]|]; [|done].
    destruct (negb _); [done|discriminate].
  - unfold send_message. destruct (find_one _ _) as [[i d]|]; [|done].
    destruct (negb _); [done|].
    destruct (Message_new _) as [doc|e']; [discriminate|done].
  - done.
Qed.

Lemma handle_raise_atomic_witness :
  store (handle db_created (POST_messages_send (demo_send (Some "sticker")) demo_msg_id))
  = db_created
  /\ posts (handle db_created (POST_messages_send (demo_send (Some "sticker")) demo_msg_id))
     = [].
Proof.
  exact (handle_raise_atomic db_created
           (POST_messages_send (demo_send (Some "sticker")) demo_msg_id)
           ValidationError eq_refl).
Defined.

(** The header is read the same way over every store: what depends on
    the store is the lookup of the token alone. *)
Lemma get_current_user_token s authorization cu :
  get_current_user s authorization = Ok cu ->
  exists token,
    _user_from_token s token = Some cu
    /\ forall s' cu',
         _user_from_token s' token = Some cu' ->
         get_current_user s' authorization = Ok cu'.
Proof.
  unfold get_current_user. destruct (negb (truthy authorization)); [discriminate|].
  destruct (partition_space _) as [scheme token].
  destruct (negb _ || _); [discriminate|].
  destruct (_user_from_token s token) as [u|] eqn:Hu; [|discriminate].
  intros [= <-]. exists token. split; [exact Hu|]. by intros s' cu' ->.
Qed.

(** X9: access tokens are never revoked or expired: a header that
    resolves to a user keeps resolving to a user after any sequence of
    requests. *)
Theorem bearer_stays_valid s authorization current_user cs :
  get_current_user s authorization = Ok current_user ->
  exists current_user', get_current_user (run s cs) authorization = Ok current_user'.
Proof.
  intros Hcu. destruct (get_current_user_token _ _ _ Hcu) as (token & Hu & Hrun).
  destruct current_user as [i u]. unfold _user_from_token in Hu.
  apply find_one_Some in Hu as [Hi Hin].
  destruct (run_user_kept cs s i u Hi) as (u' & l & Hu' & _ & _ & _ & Htk).
  assert (is_Some (_user_from_token (run s cs) token)) as [cu' Hcu'].
  { unfold _user_from_token, find_one.
    apply (list_find_elem_of _ _ u'); [by apply list_elem_of_lookup_2 in Hu'|].
    rewrite Htk. apply elem_of_app. by left. }
  exists cu'. by apply Hrun.
Qed.

Lemma bearer_stays_valid_witness :
  exists current_user',
    get_current_user
      (run db_created
         [POST_auth_otp_request alice_request "120965" 5000000%Z;
          POST_auth_otp_verify (alice_verify "120965") "Tq0Yb3Zc9Ve5Ha2Lm7XWd4sR8uJ1kNf6k3Vx9QeT"
            6000000%Z])
      alice_authorization
    = Ok current_user'.
Proof.
  exact (bearer_stays_valid db_created alice_authorization _ _ eq_refl).
Defined.

Lemma get_current_user_Bearer s token :
  token <> "" ->
  get_current_user s (Some ("Bearer " +:+ token))
  = match _user_from_token s token with
    | None => Raise (HTTPException 401 "Invalid or expired token")
    | Some user => Ok user
    end.
Proof.
  intros Hne. unfold get_current_user.
  change (truthy (Some ("Bearer " +:+ token))) with true.
  change (partition_space (default "" (Some ("Bearer " +:+ token))))
    with ("Bearer", token).
  cbv beta iota zeta. change (lower "Bearer" =? "bearer") with true.
  apply String.eqb_neq in Hne. rewrite Hne. reflexivity.
Qed.

(** X10: the token a successful [verify_otp] answers is a valid bearer
    token from then on: presented as "Bearer <token>" it resolves to a
    user holding it, and to the verified user when no stored user held
    that token before. *)
Theorem verify_otp_token_authenticates s payload token now r s' :
  verify_otp s payload token now = (Ok r, s') ->
  token <> "" ->
  exists current_user,
    get_current_user s' (Some ("Bearer " +:+ access_token r)) = Ok current_user
    /\ token ∈ User.access_tokens (snd current_user)
    /\ ((forall u, u ∈ user s -> token ∉ User.access_tokens u) ->
        exists i u,
          find_one (matches (identifier_of (OTPVerify.email payload)
                               (OTPVerify.phone payload))) (user s) = Some (i, u)
          /\ current_user = (i, consume_otp token u)).
Proof.
  unfold verify_otp. destruct (_ && _); [discriminate|].
  set (ident := identifier_of _ _).
  destruct (find_one (matches ident) (user s)) as [[i u]|] eqn:Hf; [|discriminate].
  destruct (negb (truthy _)); [discriminate|].
  destruct (negb (bool_decide _)); [discriminate|].
  destruct (match User.otp_expires_at u with Some _ => _ | None => _ end); [discriminate|].
  intros [= <- <-] Hne. cbn [access_token].
  rewrite (get_current_user_Bearer _ _ Hne). unfold _user_from_token, find_one.
  cbn [user set_user]. apply find_one_Some in Hf as [Hi _].
  assert (update_one i (consume_otp token) (user s) !! i = Some (consume_otp token u)) as Hi'.
  { unfold update_one. unfold ObjectId in *. by rewrite list_lookup_alter_eq, Hi. }
  assert (token ∈ User.access_tokens (consume_otp token u)) as Hin.
  { cbn. apply elem_of_app. right. apply list_elem_of_here. }
  destruct (list_find (fun u0 => token ∈ User.access_tokens u0)
              (update_one i (consume_otp token) (user s))) as [[j uj]|] eqn:Hj.
  - exists (j, uj). split; [reflexivity|].
    apply list_find_Some in Hj as (Hlj & Hpj & Hfirst). split; [exact Hpj|].
    intros Hfresh. exists i, u. split; [reflexivity|].
    destruct (decide (j = i)) as [->|Hji].
    + unfold ObjectId in *. congruence.
    + unfold update_one in Hlj. rewrite list_lookup_alter_ne in Hlj by done.
      destruct (Hfresh uj); [by apply list_elem_of_lookup_2 in Hlj|exact Hpj].
  - apply list_find_None in Hj. rewrite Forall_forall in Hj.
    destruct (Hj (consume_otp token u)); [by apply list_elem_of_lookup_2 in Hi'|exact Hin].
Qed.

Lemma verify_otp_token_authenticates_witness :
  exists current_user,
    get_current_user
      (snd (verify_otp db_otp_pending (alice_verify "493817") alice_bearer 1000000%Z))
      (Some ("Bearer " +:+ alice_bearer)) = Ok current_user
    /\ alice_bearer ∈ User.access_tokens (snd current_user)
    /\ ((forall u, u ∈ user db_otp_pending -> alice_bearer ∉ User.access_tokens u) ->
        exists i u,
          find_one (matches (by_email (Some "alice@example.com"))) (user db_otp_pending)
          = Some (i, u)
          /\ current_user = (i, consume_otp alice_bearer u)).
Proof.
  apply (verify_otp_token_authenticates db_otp_pending (alice_verify "493817")
           alice_bearer 1000000%Z _ _ eq_refl).
  discriminate.
Defined.

(** ** Instances: create, list, authenticate, send *)

Section find_snoc.
Context {A : Type} (P : A -> Prop) `{forall x, Decision (P x)}.

Lemma find_imap_snoc (g : nat -> ObjectId) (l : list A) (x : A) :
  filter (fun d => P (snd d)) (imap (fun i y => (g i, y)) (l ++ [x]))
  = filter (fun d => P (snd d)) (imap (fun i y => (g i, y)) l)
    ++ (if decide (P x) then [(g (length l), x)] else []).
Proof.
  rewrite imap_app, filter_app. f_equal. cbn [imap].
  rewrite filter_cons, filter_nil. cbn [snd]. rewrite Nat.add_0_r. reflexivity.
Qed.

(** [find] after an insertion: the new document comes last, under the
    [_id] it was given. *)
Lemma find_snoc (l : list A) (x : A) :
  find P (l ++ [x]) = find P l ++ (if decide (P x) then [(length l, x)] else []).
Proof. apply (find_imap_snoc id). Qed.
End find_snoc.

Lemma str_inj (i j : ObjectId) : str i = str j -> i = j.
Proof. apply pretty_nat_inj. Qed.

(** X11: an instance just created is listed to its creator, last and
    under the [_id] the creation answered, with the token and the flag
    false; the listings of the other users stay as they were. *)
Theorem create_then_list s payload current_user instance_id token :
  let r := fst (create_instance s payload current_user instance_id token) in
  let s' := snd (create_instance s payload current_user instance_id token) in
  list_instances s' current_user
  = list_instances s current_user
    ++ [ (created__id r,
          {| Instance.user_id := str (fst current_user);
             Instance.name := InstanceCreate.name payload;
             Instance.instance_id := instance_id;
             Instance.token := token;
             Instance.is_authenticated := false |}) ]
  /\ (forall other : ObjectId * User.t,
        fst other <> fst current_user ->
        list_instances s' other = list_instances s other).
Proof.
  cbn zeta. unfold create_instance, create_document, list_instances.
  cbn [fst snd instance set_instance created__id]. split.
  - rewrite find_snoc, decide_True by reflexivity. rewrite fmap_app. reflexivity.
  - intros other Hne. rewrite find_snoc, decide_False, app_nil_r; [reflexivity|].
    cbn. intros Heq. by apply str_inj in Heq.
Qed.

Lemma send_credentials_fresh s payload current_user instance_id token :
  find_one (fun d => Instance.instance_id d = instance_id) (instance s) = None ->
  credentials_ok (snd (create_instance s payload current_user instance_id token))
    instance_id token
    {| Instance.user_id := str (fst current_user);
       Instance.name := InstanceCreate.name payload;
       Instance.instance_id := instance_id;
       Instance.token := token;
       Instance.is_authenticated := false |}.
Proof.
  intros Hfresh. exists (length (instance s)). split; [|reflexivity].
  unfold create_instance, create_document. cbn [snd instance set_instance].
  by apply find_one_snoc_fresh.
Qed.

(** X12: with a public id drawn that no stored instance has yet,
    [create_instance] answers [is_authenticated] false, and the
    [instance_id] and [token] it answers pass the check of
    [send_message] at once: a send with them, of an accepted type and
    without interactive payload, is answered "failed" with the
    not-authenticated error; [authenticate_instance] with the answered
    [instance_id] by the creator succeeds; and the same send after it is
    answered "sent" with a null error. *)
Theorem create_send_authenticate_send s payload current_user instance_id token
    (send : SendMessage.t) msg_id msg_id' :
  find_one (fun d => Instance.instance_id d = instance_id) (instance s) = None ->
  let r := fst (create_instance s payload current_user instance_id token) in
  let s1 := snd (create_instance s payload current_user instance_id token) in
  let s2 := snd (authenticate_instance s1 (created_instance_id r) current_user) in
  SendMessage.instance_id send = created_instance_id r ->
  SendMessage.token send = created_token r ->
  SendMessage.interactive send = None ->
  type_accepted send ->
  created_is_authenticated r = false
  /\ fst (fst (send_message s1 send msg_id))
     = Ok {| r_message_id := msg_id; r_status := "failed";
             r_error := Some "Instance not authenticated (scan QR first)" |}
  /\ fst (authenticate_instance s1 (created_instance_id r) current_user)
     = Ok (created_instance_id r, true)
  /\ fst (fst (send_message s2 send msg_id'))
     = Ok {| r_message_id := msg_id'; r_status := "sent"; r_error := None |}.
Proof.
  intros Hfresh r s1 s2 Hid Htok _ Ht.
  assert (created_instance_id r = instance_id) as Hrid by reflexivity.
  assert (created_token r = token) as Hrtok by reflexivity.
  rewrite Hrid in Hid. rewrite Hrtok in Htok. unfold s2. rewrite Hrid. clear s2.
  split; [reflexivity|].
  pose proof (send_credentials_fresh s payload current_user instance_id token Hfresh)
    as Hc. fold s1 in Hc.
  set (doc := {| Instance.user_id := str (fst current_user);
                 Instance.name := InstanceCreate.name payload;
                 Instance.instance_id := instance_id;
                 Instance.token := token;
                 Instance.is_authenticated := false |}) in *.
  assert (find_one (fun d => Instance.instance_id d = instance_id
                             /\ Instance.user_id d = str (fst current_user))
                   (instance s1) = Some (length (instance s), doc)) as Hown.
  { unfold s1, create_instance, create_document. cbn [snd instance set_instance].
    apply find_one_snoc_fresh; [|done].
    apply list_find_None in Hfresh. apply list_find_None.
    eapply Forall_impl; [exact Hfresh|]. cbn. tauto. }
  split; [|split].
  - rewrite <- Hid, <- Htok in Hc. rewrite (send_message_eq _ _ _ _ Hc). cbn.
    rewrite Message_new_failed by exact Ht. reflexivity.
  - unfold authenticate_instance. rewrite Hown. reflexivity.
  - assert (credentials_ok (snd (authenticate_instance s1 instance_id current_user))
              (SendMessage.instance_id send) (SendMessage.token send)
              (set_authenticated doc)) as Hc2.
    { rewrite Hid, Htok. destruct Hc as (i & Hf & _). exists i. split; [|reflexivity].
      unfold authenticate_instance. rewrite Hown. cbn [snd instance set_instance].
      apply find_one_Some in Hown as [Hl _].
      assert (i = length (instance s)) as ->.
      { apply find_one_Some in Hf as [Hi _]. unfold s1, create_instance, create_document in *.
        cbn [snd instance set_instance] in *.
        apply lookup_app_Some in Hi as [Hi|[Hge Hi]].
        - apply list_find_None in Hfresh. rewrite Forall_forall in Hfresh.
          destruct (Hfresh doc); [|reflexivity].
          apply list_elem_of_lookup_2 in Hi. exact Hi.
        - apply list_lookup_singleton_Some in Hi as [Hi _]. lia. }
      by apply find_one_update_found. }
    rewrite (send_message_eq _ _ _ _ Hc2). cbn.
    rewrite Message_new_sent by exact Ht. reflexivity.
Qed.

Lemma create_send_authenticate_send_witness :
  created_is_authenticated
    (fst (create_instance db_otp_pending {| InstanceCreate.name := "phone" |} alice
            demo_instance_id demo_token)) = false
  /\ fst (fst (send_message
                 (snd (create_instance db_otp_pending {| InstanceCreate.name := "phone" |}
                         alice demo_instance_id demo_token))
                 (demo_send None) demo_msg_id))
     = Ok {| r_message_id := demo_msg_id; r_status := "failed";
             r_error := Some "Instance not authenticated (scan QR first)" |}
  /\ fst (authenticate_instance
            (snd (create_instance db_otp_pending {| InstanceCreate.name := "phone" |}
                    alice demo_instance_id demo_token))
            demo_instance_id alice)
     = Ok (demo_instance_id, true)
  /\ fst (fst (send_message
                 (snd (authenticate_instance
                         (snd (create_instance db_otp_pending
                                 {| InstanceCreate.name := "phone" |} alice
                                 demo_instance_id demo_token))
                         demo_instance_id alice))
                 (demo_send None) "Wm5Tp0Qz8Rk3"))
     = Ok {| r_message_id := "Wm5Tp0Qz8Rk3"; r_status := "sent"; r_error := None |}.
Proof.
  exact (create_send_authenticate_send db_otp_pending {| InstanceCreate.name := "phone" |}
           alice demo_instance_id demo_token (demo_send None) demo_msg_id "Wm5Tp0Qz8Rk3"
           eq_refl eq_refl eq_refl eq_refl type_accepted_text).
Defined.

Lemma set_authenticated_idemp d : set_authenticated (set_authenticated d) = set_authenticated d.
Proof. reflexivity. Qed.

(** X13: [authenticate_instance] is idempotent: called again after it
    succeeded, it answers the same and leaves the store as the first
    call left it. *)
Theorem authenticate_instance_idempotent s instance_id current_user r s1 :
  authenticate_instance s instance_id current_user = (Ok r, s1) ->
  authenticate_instance s1 instance_id current_user = (Ok r, s1).
Proof.
  unfold authenticate_instance.
  destruct (find_one _ (instance s)) as [[i d]|] eqn:Hf; [|discriminate].
  intros [= <- <-]. cbn [instance set_instance].
  rewrite (find_one_update_found _ _ _ _ _ Hf)
    by (apply find_one_Some in Hf as [_ Hd]; exact Hd).
  f_equal. unfold set_instance. cbn. f_equal. unfold update_one.
  rewrite list_alter_alter_eq. apply list_alter_ext; [|reflexivity].
  intros. apply set_authenticated_idemp.
Qed.

Lemma authenticate_instance_idempotent_witness :
  authenticate_instance db_authenticated demo_instance_id alice
  = (Ok (demo_instance_id, true), db_authenticated).
Proof.
  exact (authenticate_instance_idempotent db_authenticated demo_instance_id alice
           (demo_instance_id, true) db_authenticated eq_refl).
Defined.

(** X14: a caller who owns no instance with the public id gets 404
    "Instance not found" and changes nothing, whoever else owns an
    instance with that id: one user cannot authenticate the instance of
    another. *)
Theorem authenticate_instance_not_owner s instance_id (current_user : ObjectId * User.t) :
  (forall d, d ∈ instance s -> Instance.instance_id d = instance_id ->
             exists owner : ObjectId,
               Instance.user_id d = str owner /\ owner <> fst current_user) ->
  authenticate_instance s instance_id current_user = (Raise InstanceNotFound, s).
Proof.
  intros Hown. unfold authenticate_instance.
  destruct (find_one _ (instance s)) as [[i d]|] eqn:Hf; [|reflexivity].
  apply find_one_Some in Hf as [Hi [Hid Hu]].
  destruct (Hown d) as (owner & Ho & Hne); [by apply list_elem_of_lookup_2 in Hi|exact Hid|].
  rewrite Hu in Ho. by apply str_inj in Ho.
Qed.

Lemma authenticate_instance_not_owner_witness :
  authenticate_instance db_created demo_instance_id
    (1, new_user (by_phone (Some "+15550111")) "120965" 0%Z)
  = (Raise InstanceNotFound, db_created).
Proof.
  apply (authenticate_instance_not_owner db_created demo_instance_id
           (1, new_user (by_phone (Some "+15550111")) "120965" 0%Z)).
  intros d Hd _. apply list_elem_of_singleton in Hd as ->.
  exists 0. split; [reflexivity|discriminate].
Defined.

(** ** Webhooks *)

Lemma subscribers_snoc s (h : Webhook.t) instance_id event :
  subscribers (set_webhook s (webhook s ++ [h])) instance_id event
  = subscribers s instance_id event
    ++ (if decide (Webhook.instance_id h = instance_id /\ event ∈ Webhook.events h)
        then [h] else []).
Proof.
  unfold subscribers. cbn [webhook set_webhook].
  rewrite filter_app, filter_cons, filter_nil. reflexivity.
Qed.

(** X15: a registration that succeeds adds one webhook for that instance
    id, subscribed to the events given, or to "message.status" and
    "message.incoming" when none or an empty list is given; the instance
    is not touched. From then on the webhooks notified of a send on that
    instance are the ones notified before, followed by the new one when
    its events contain "message.status". *)
Theorem register_webhook_subscribes s payload r s' :
  register_webhook s payload = (Ok r, s') ->
  let events :=
    match RegisterWebhook.events payload with
    | Some (e :: l) => e :: l
    | _ => ["message.status"; "message.incoming"]
    end in
  let hook := {| Webhook.instance_id := RegisterWebhook.instance_id payload;
                 Webhook.url := RegisterWebhook.url payload;
                 Webhook.events := events |} in
  webhook s' = webhook s ++ [hook]
  /\ instance s' = instance s
  /\ registered__id r = str (length (webhook s))
  /\ subscribers s' (RegisterWebhook.instance_id payload) "message.status"
     = subscribers s (RegisterWebhook.instance_id payload) "message.status"
       ++ (if decide ("message.status" ∈ events) then [hook] else []).
Proof.
  unfold register_webhook.
  destruct (find_one _ (instance s)) as [[i d]|]; [|discriminate].
  destruct (negb _); [discriminate|].
  unfold create_document. intros [= <- <-]. cbn zeta.
  split; [reflexivity|]. split; [reflexivity|]. split; [reflexivity|].
  unfold or_list. rewrite subscribers_snoc. f_equal. cbn [Webhook.instance_id Webhook.events].
  destruct (RegisterWebhook.events payload) as [[|e l]|];
    repeat case_decide; try reflexivity; tauto.
Qed.

Lemma register_webhook_subscribes_witness :
  webhook (snd (register_webhook db_created (demo_hook (Some []))))
  = webhook db_created
    ++ [ {| Webhook.instance_id := demo_instance_id;
            Webhook.url := "https://hooks.example.com/status";
            Webhook.events := ["message.status"; "message.incoming"] |} ].
Proof.
  exact (proj1 (register_webhook_subscribes db_created (demo_hook (Some [])) _ _ eq_refl)).
Defined.

(** [_emit_webhook] calls, once each and in the order of registration,
    the webhooks stored for that instance id whose events contain the
    event. *)
Lemma emit_webhook_calls s instance_id event data :
  _emit_webhook s instance_id event data
  = (fun h => {| post_url := Webhook.url h; post_event := event; post_data := data |})
      <$> filter (fun h => Webhook.instance_id h = instance_id /\ event ∈ Webhook.events h)
                 (webhook s).
Proof.
  unfold _emit_webhook.
  rewrite <- (find_snd (fun h => Webhook.instance_id h = instance_id
                                 /\ event ∈ Webhook.events h)).
  rewrite <- list_fmap_compose. reflexivity.
Qed.

(** ** Message status *)

(** X16: [get_message_status] raises 404 "Message not found" exactly for
    the ids no stored message has; for any other id it answers the
    fields of the first message stored under it. *)
Theorem get_message_status_found s message_id :
  (get_message_status s message_id = Raise MessageNotFound
   <-> forall m, m ∈ message s -> Message.message_id m <> message_id)
  /\ (forall r, get_message_status s message_id = Ok r ->
        exists i m,
          message s !! i = Some m
          /\ Message.message_id m = message_id
          /\ r = {| r_message_id := message_id; r_status := Message.status m;
                    r_error := Message.error m |}
          /\ forall j m', message s !! j = Some m' -> j < i ->
                          Message.message_id m' <> message_id).
Proof.
  unfold get_message_status, find_one.
  destruct (list_find _ (message s)) as [[i m]|] eqn:Hf.
  - apply list_find_Some in Hf as (Hi & Hm & Hfirst). split.
    + split; [discriminate|]. intros Hall. destruct (Hall m); [|exact Hm].
      by apply list_elem_of_lookup_2 in Hi.
    + intros r [= <-]. exists i, m. rewrite Hm. done.
  - apply list_find_None in Hf. rewrite Forall_forall in Hf. split; [|discriminate].
    split; [intros _; exact Hf|reflexivity].
Qed.

(** ** Shapes kept along every run *)

(** What a request does to the messages, in full. *)
Lemma handle_message_cases s c :
  message (store (handle s c)) = message s
  \/ (exists payload msg_id i inst doc,
        c = POST_messages_send payload msg_id
        /\ find_one (fun d => Instance.instance_id d = SendMessage.instance_id payload)
                    (instance s) = Some (i, inst)
        /\ Message_new
             (message_doc payload msg_id
                (if Instance.is_authenticated inst then "sent" else "failed")
                (if Instance.is_authenticated inst then None else not_authenticated_error))
           = Ok doc
        /\ message (store (handle s c)) = message s ++ [doc]).
Proof.
  destruct c; cbn [handle]; unfold with_current_user.
  - pose proof (request_otp_frame s payload code now) as (_ & Hm & _).
    destruct (request_otp s payload code now). by left.
  - pose proof (verify_otp_frame s payload token now) as (_ & Hm & _).
    destruct (verify_otp s payload token now). by left.
  - destruct (get_current_user s authorization); by left.
  - destruct (get_current_user s authorization); by left.
  - destruct (get_current_user s authorization); [|by left].
    unfold authenticate_instance. destruct (find_one _ _) as [[i d]|]; by left.
  - unfold register_webhook. destruct (find_one _ _) as [[i d]|]; [|by left].
    destruct (negb _); by left.
  - destruct (find_one (fun d => Instance.instance_id d = SendMessage.instance_id payload)
                (instance s)) as [[i inst]|] eqn:Hf;
      [|unfold send_message; rewrite Hf; by left].
    destruct (String.eqb_spec (Instance.token inst) (SendMessage.token payload))
      as [Ht|Ht].
    + assert (credentials_ok s (SendMessage.instance_id payload)
                (SendMessage.token payload) inst) as Hc by (by exists i).
      rewrite (send_message_eq _ _ _ _ Hc). cbn zeta.
      destruct (Message_new _) as [doc|e] eqn:Hdoc; [|by left].
      right. by exists payload, msg_id, i, inst, doc.
    + unfold send_message. rewrite Hf. apply String.eqb_neq in Ht. rewrite Ht. by left.
  - by left.
Qed.

(** What a request does to the webhooks. *)
Lemma handle_webhook_cases s c :
  webhook (store (handle s c)) = webhook s
  \/ (exists payload i inst,
        c = POST_webhooks_register payload
        /\ find_one (fun d => Instance.instance_id d = RegisterWebhook.instance_id payload)
                    (instance s) = Some (i, inst)
        /\ webhook (store (handle s c))
           = webhook s
             ++ [ {| Webhook.instance_id := RegisterWebhook.instance_id payload;
                     Webhook.url := RegisterWebhook.url payload;
                     Webhook.events :=
                       or_list (RegisterWebhook.events payload)
                         ["message.status"; "message.incoming"] |} ]).
Proof.
  destruct c; cbn [handle]; unfold with_current_user.
  - pose proof (request_otp_frame s payload code now) as (_ & _ & Hw).
    destruct (request_otp s payload code now). by left.
  - pose proof (verify_otp_frame s payload token now) as (_ & _ & Hw).
    destruct (verify_otp s payload token now). by left.
  - destruct (get_current_user s authorization); by left.
  - destruct (get_current_user s authorization); by left.
  - destruct (get_current_user s authorization); [|by left].
    unfold authenticate_instance. destruct (find_one _ _) as [[i d]|]; by left.
  - unfold register_webhook. destruct (find_one _ _) as [[i d]|] eqn:Hf; [|by left].
    destruct (negb _); [by left|]. right. by exists payload, i, d.
  - unfold send_message. destruct (find_one _ _) as [[i d]|]; [|by left].
    destruct (negb _); [by left|].
    destruct (Message_new _) as [doc|e]; by left.
  - by left.
Qed.

Lemma instance_ok_kept s s' d :
  (forall i u, user s !! i = Some u -> exists u', user s' !! i = Some u') ->
  instance_ok s d -> instance_ok s' d.
Proof.
  intros Hk (i & u & Hu & Hd). destruct (Hk i u Hu) as [u' Hu']. by exists i, u'.
Qed.

Lemma has_instance_kept s s' (instance_id : string) :
  (forall i d, instance s !! i = Some d ->
               exists d', instance s' !! i = Some d' /\ same_instance d d') ->
  (exists d, d ∈ instance s /\ Instance.instance_id d = instance_id) ->
  exists d, d ∈ instance s' /\ Instance.instance_id d = instance_id.
Proof.
  intros Hk (d & [i Hi]%list_elem_of_lookup_1 & Hd).
  destruct (Hk i d Hi) as (d' & Hi' & _ & _ & Hid & _).
  exists d'. split; [by apply list_elem_of_lookup_2 in Hi'|congruence].
Qed.

Lemma user_ok_set_otp ident code expires u :
  matches ident u -> user_ok u -> user_ok (set_otp ident code expires u).
Proof.
  intros Hm [Hid _]. split; [|split; discriminate].
  destruct ident; cbn in *; rewrite Hm in Hid; exact Hid.
Qed.

Lemma user_ok_new_user email phone code expires :
  truthy email || truthy phone = true ->
  user_ok (new_user (identifier_of email phone) code expires).
Proof.
  intros Ht. apply identifier_truthy in Ht. split; [|split; discriminate].
  destruct (identifier_of email phone); cbn; [left|right]; tauto.
Qed.

Lemma user_ok_consume_otp token u : user_ok u -> user_ok (consume_otp token u).
Proof. intros [Hid _]. split; [exact Hid|done]. Qed.

Lemma Forall_update_one {A} (P : A -> Prop) (f : A -> A) (i : ObjectId) (l : list A) :
  Forall P l -> (forall x, l !! i = Some x -> P x -> P (f x)) ->
  Forall P (update_one i f l).
Proof.
  intros Hl Hf. apply Forall_lookup. intros j y Hj. unfold update_one in Hj.
  rewrite Forall_lookup in Hl.
  destruct (decide (i = j)) as [->|Hij].
  - rewrite list_lookup_alter_eq in Hj.
    destruct (l !! j) as [x|] eqn:Hx; [|discriminate]. injection Hj as <-.
    apply Hf; [exact Hx|]. by apply (Hl j).
  - rewrite list_lookup_alter_ne in Hj by done. by apply (Hl j).
Qed.

(** Every request keeps the shapes of the stored documents. *)
Lemma handle_db_ok s c : db_ok s -> db_ok (store (handle s c)).
Proof.
  intros (Hu & Hi & Hm & Hw).
  assert (forall i u, user s !! i = Some u ->
                      exists u', user (store (handle s c)) !! i = Some u') as Hku.
  { intros i u Hiu. destruct (handle_user_kept s c i u Hiu) as (u' & l & Hu' & _).
    by exists u'. }
  assert (forall i d, instance s !! i = Some d ->
                      exists d', instance (store (handle s c)) !! i = Some d'
                                 /\ same_instance d d') as Hki.
  { intros i d Hid. destruct (handle_instance_flag s c i d Hid) as (d' & Hd' & Hs & _).
    by exists d'. }
  split; [|split; [|split]].
  - destruct (handle_user s c)
      as [-> | [(p & code & now & _ & Ht & [(j & uj & Hf & ->) | (_ & ->)])
               | (p & token & now & j & uj & _ & Hf & ->)]]; [exact Hu| | |].
    + apply find_one_Some in Hf as [Hj Hmj]. apply Forall_update_one; [exact Hu|].
      intros x Hx Hok. apply user_ok_set_otp; [|exact Hok].
      assert (x = uj) as -> by (unfold ObjectId in *; congruence). exact Hmj.
    + apply Forall_app. split; [exact Hu|]. apply Forall_singleton.
      by apply user_ok_new_user.
    + apply Forall_update_one; [exact Hu|]. intros x _. apply user_ok_consume_otp.
  - destruct (handle_instance s c)
      as [E | [(a & p & iid & tok & cu & _ & Hcu & E)
              | (a & iid & cu & j & dj & _ & Hcu & Hf & E)]]; rewrite E.
    + eapply Forall_impl; [exact Hi|]. intros d. by apply instance_ok_kept.
    + apply Forall_app. split.
      * eapply Forall_impl; [exact Hi|]. intros d. by apply instance_ok_kept.
      * apply Forall_singleton.
        destruct (get_current_user_token _ _ _ Hcu) as (token & Hfu & _).
        destruct cu as [k uk]. apply find_one_Some in Hfu as [Hk _].
        destruct (Hku k uk Hk) as [u' Hu']. by exists k, u'.
    + apply Forall_update_one.
      * eapply Forall_impl; [exact Hi|]. intros d. by apply instance_ok_kept.
      * intros x _ Hx. exact Hx.
  - assert (Forall (message_ok (store (handle s c))) (message s)) as Hold.
    { eapply Forall_impl; [exact Hm|]. intros m (Ht & Hst & Hin).
      split; [exact Ht|]. split; [exact Hst|]. by apply (has_instance_kept s). }
    destruct (handle_message_cases s c)
      as [-> | (p & mid & i & inst & doc & _ & Hf & Hdoc & ->)]; [exact Hold|].
    apply Forall_app. split; [exact Hold|]. apply Forall_singleton.
    pose proof (Message_new_Ok _ _ Hdoc) as ->.
    unfold Message_new in Hdoc. cbn [Message.type Message.status message_doc] in Hdoc.
    destruct (bool_decide _) eqn:Hty; [|discriminate Hdoc].
    apply bool_decide_eq_true_1 in Hty. split; [exact Hty|]. split.
    + destruct (Instance.is_authenticated inst); [left|right]; done.
    + apply (has_instance_kept s); [exact Hki|].
      apply find_one_Some in Hf as [Hl Hid]. exists inst.
      split; [by apply list_elem_of_lookup_2 in Hl|exact Hid].
  - assert (Forall (webhook_ok (store (handle s c))) (webhook s)) as Hold.
    { eapply Forall_impl; [exact Hw|]. intros h (Hne & Hin).
      split; [exact Hne|]. by apply (has_instance_kept s). }
    destruct (handle_webhook_cases s c) as [-> | (p & i & inst & _ & Hf & ->)];
      [exact Hold|].
    apply Forall_app. split; [exact Hold|]. apply Forall_singleton. split.
    + cbn. unfold or_list. by destruct (RegisterWebhook.events p) as [[|e l]|].
    + apply (has_instance_kept s); [exact Hki|].
      apply find_one_Some in Hf as [Hl Hid]. exists inst.
      split; [by apply list_elem_of_lookup_2 in Hl|exact Hid].
Qed.

Lemma empty_db_ok : db_ok empty_db.
Proof. repeat split; apply Forall_nil_2. Qed.

Lemma run_db_ok cs : forall s, db_ok s -> db_ok (run s cs).
Proof.
  induction cs as [|c cs IH]; intros s Hs; [exact Hs|].
  apply (IH (store (handle s c))). by apply handle_db_ok.
Qed.

(** X17: in every store reached from the empty one, each user has
    exactly one identifier, a non-empty email or a non-empty phone, and
    its OTP code and expiry are both set or both null. *)
Theorem users_well_formed cs : Forall user_ok (user (run empty_db cs)).
Proof. apply (run_db_ok cs empty_db empty_db_ok). Qed.

(** X18: in every store reached from the empty one, each instance is
    owned by a stored user: its [user_id] is the [_id] of one. *)
Theorem instances_owned cs :
  Forall (instance_ok (run empty_db cs)) (instance (run empty_db cs)).
Proof. apply (run_db_ok cs empty_db empty_db_ok). Qed.

(** X19: in every store reached from the empty one, each message has a
    type of the [Message] model, is either "sent" with a null error or
    "failed" with the error "Instance not authenticated (scan QR
    first)", and carries the public id of a stored instance. *)
Theorem messages_well_formed cs :
  Forall (message_ok (run empty_db cs)) (message (run empty_db cs)).
Proof. apply (run_db_ok cs empty_db empty_db_ok). Qed.

(** X20: in every store reached from the empty one, each webhook is
    subscribed to at least one event and carries the public id of a
    stored instance. *)
Theorem webhooks_well_formed cs :
  Forall (webhook_ok (run empty_db cs)) (webhook (run empty_db cs)).
Proof. apply (run_db_ok cs empty_db empty_db_ok). Qed.

(** ** Nothing is removed *)

Lemma run_webhook s cs : exists l, webhook (run s cs) = webhook s ++ l.
Proof.
  revert s. induction cs as [|c cs IH]; intros s.
  - exists []. symmetry. apply app_nil_r.
  - cbn [run foldl]. destruct (IH (store (handle s c))) as [l Hl].
    unfold run in Hl. rewrite Hl.
    destruct (handle_webhook_cases s c) as [-> | (p & i & inst & _ & _ & ->)];
      [by exists l|].
    eexists. by rewrite <- app_assoc.
Qed.

Lemma run_instance_kept cs : forall s i d,
  instance s !! i = Some d ->
  exists d', instance (run s cs) !! i = Some d' /\ same_instance d d'.
Proof.
  induction cs as [|c cs IH]; intros s i d Hd.
  - exists d. split; [done|apply same_instance_refl].
  - destruct (handle_instance_flag s c i d Hd) as (d1 & Hd1 & Hs1 & _).
    destruct (IH (store (handle s c)) i d1 Hd1) as (d' & Hd' & Hs').
    exists d'. split; [exact Hd'|]. by apply (same_instance_trans d d1 d').
Qed.

(** X21: no sequence of requests removes or reorders a document.
    Messages and webhooks are only appended to, unchanged; a user keeps
    its [_id], identifiers and name, and its access tokens with at most
    new ones after them; an instance keeps its [_id], owner, name, public
    id and token. *)
Theorem store_append_only s cs :
  (exists l, message (run s cs) = message s ++ l)
  /\ (exists l, webhook (run s cs) = webhook s ++ l)
  /\ (forall i u,
        user s !! i = Some u ->
        exists u' l,
          user (run s cs) !! i = Some u'
          /\ User.email u' = User.email u
          /\ User.phone u' = User.phone u
          /\ User.name u' = User.name u
          /\ User.access_tokens u' = User.access_tokens u ++ l)
  /\ (forall i d,
        instance s !! i = Some d ->
        exists d', instance (run s cs) !! i = Some d' /\ same_instance d d').
Proof.
  split; [apply run_message|]. split; [apply run_webhook|].
  split; [apply run_user_kept|apply run_instance_kept].
Qed.

(** X22: once [authenticate_instance] has succeeded, the listing of the
    caller shows the instance found for the public id under the same
    [_id], with [is_authenticated] true and its owner, name, public id
    and token as before. *)
Theorem authenticate_then_list s instance_id current_user r s' :
  authenticate_instance s instance_id current_user = (Ok r, s') ->
  exists i d d',
    find_one (fun d => Instance.instance_id d = instance_id
                       /\ Instance.user_id d = str (fst current_user))
             (instance s) = Some (i, d)
    /\ (str i, d') ∈ list_instances s' current_user
    /\ Instance.is_authenticated d' = true
    /\ same_instance d d'.
Proof.
  unfold authenticate_instance.
  destruct (find_one _ (instance s)) as [[i d]|] eqn:Hf; [|discriminate].
  intros [= <- <-]. exists i, d, (set_authenticated d). split; [reflexivity|].
  split; [|split; [reflexivity|apply same_instance_set_authenticated]].
  apply find_one_Some in Hf as [Hi [_ Hu]].
  apply elem_of_list_instances. exists i, (set_authenticated d).
  split; [reflexivity|]. split; [|exact Hu].
  cbn [instance set_instance]. unfold update_one, ObjectId in *.
  by rewrite list_lookup_alter_eq, Hi.
Qed.

Lemma authenticate_then_list_witness :
  exists i d d',
    find_one (fun d => Instance.instance_id d = demo_instance_id
                       /\ Instance.user_id d = str (fst alice))
             (instance db_created) = Some (i, d)
    /\ (str i, d')
       ∈ list_instances (snd (authenticate_instance db_created demo_instance_id alice)) alice
    /\ Instance.is_authenticated d' = true
    /\ same_instance d d'.
Proof.
  exact (authenticate_then_list db_created demo_instance_id alice _ _ eq_refl).
Defined.
